(** * Value objects: construction, immutability, invariants, equality

    A shallow embedding of [simple_value_object/value_object.py]: the
    [ValueObject.__new__] pipeline (declared-shape introspection, guards,
    freezing of keyword values, binding into the instance [__dict__],
    invariant discovery and execution) and the instance protocol
    ([__setattr__], [__eq__], [__ne__], [__repr__], [__str__], [__hash__]).

    Modelling conventions.
    - A Python call either returns a value or raises: [outcome A].
    - An instance is its type header (class name, [__init__] and the names
      the class defines) together with its [__dict__]; the [__dict__] is an
      insertion-ordered association list that is only ever changed through
      [dict_set], as a Python dictionary is.
    - [__new__] is the construction routine of the source file.  Calling
      the class, [type_call], runs it and then has the interpreter call the
      user's [__init__] with the same arguments; the body of [__init__]
      does nothing (it cannot assign attributes, see [__setattr__]), but
      the call raises [TypeError] when the arguments do not fit its
      signature.
    - [getattr(self, arg)] in [__repr__] looks at the class first: the
      [hash] property of the source wins over what the instance binds, and
      calls [__repr__] again, until the interpreter's recursion limit is
      hit.  For any other name that the class or its bases define, the
      instance's own binding is what is read unless the class attribute is
      a data descriptor; what the class attribute itself evaluates to is
      outside the model, and the model says so ([OutsideModel]).  Classes
      are taken not to redefine the methods of [ValueObject].
    - The built-ins [str], [==] and [hash] are modelled on the value
      universe [pyval]; [hash] on strings is left abstract. *)

From Stdlib Require Import List String Ascii ZArith Bool Lia DecimalString.
Import ListNotations.
Local Open Scope list_scope.
Local Open Scope string_scope.

Set Implicit Arguments.

(** ** Exceptions and outcomes *)

(** Modelled from the spec: the exception classes of [exceptions.py], which
    the source imports and which is not among the sources.  They are the
    specification's signalled conditions: [NotDeclaredArgsException] is
    DeclarationError, [ArgWithoutValueException] is MissingValueError,
    [CannotBeChangeException] is ImmutabilityViolation,
    [ViolatedInvariantException] is InvariantViolation (with its message)
    and [InvariantReturnValueException] is InvariantTypeError.
    [AttributeError], [TypeError] and [RecursionError] are the
    interpreter's own; [UserError] stands for whatever an invariant body may
    raise.  [OutsideModel] is no exception of the program: it marks the
    places where the model stops (see [getattr]). *)
Inductive exn : Type :=
| NotDeclaredArgsException
| ArgWithoutValueException
| CannotBeChangeException
| InvariantReturnValueException
| ViolatedInvariantException (message : string)
| AttributeError (name : string)
| TypeError
| UserError (what : string)
| RecursionError
| OutsideModel (what : string).

Inductive outcome (A : Type) : Type :=
| Ok (a : A)
| Raise (e : exn).

Arguments Ok {A} a.
Arguments Raise {A} e.

Definition bind {A B : Type} (m : outcome A) (k : A -> outcome B) : outcome B :=
  match m with
  | Ok a => k a
  | Raise e => Raise e
  end.

Notation "x <- m ;; k" := (bind m (fun x => k))
  (at level 61, m at next level, right associativity).
Notation "m ;;; k" := (bind m (fun _ => k))
  (at level 61, right associativity).

(** A list comprehension whose body may raise: elements are evaluated left
    to right and the first exception escapes. *)
Fixpoint mapM {A B : Type} (f : A -> outcome B) (l : list A) : outcome (list B) :=
  match l with
  | [] => Ok []
  | x :: r => y <- f x ;; ys <- mapM f r ;; Ok (y :: ys)
  end.

(** ** Python values *)

#[local] Unset Elimination Schemes.

Inductive pyval : Type :=
| VNone
| VBool (b : bool)
| VInt (z : Z)
| VStr (s : string)
| VList (l : list pyval)
| VTuple (l : list pyval)
| VSet (l : list pyval)
| VDict (items : list (pyval * pyval))
| VImmutableDict (items : list (pyval * pyval)).

#[local] Set Elimination Schemes.

(** [isinstance(value, bool)] *)
Definition isinstance_bool (v : pyval) : bool :=
  match v with VBool _ => true | _ => false end.

(** [isinstance(value, dict)]; [immutable_dict] is a subclass of [dict]. *)
Definition isinstance_dict (v : pyval) : bool :=
  match v with VDict _ | VImmutableDict _ => true | _ => false end.

(** [isinstance(value, (list, set))] *)
Definition isinstance_list_or_set (v : pyval) : bool :=
  match v with VList _ | VSet _ => true | _ => false end.

Definition list_eqb {A B : Type} (f : A -> B -> bool) : list A -> list B -> bool :=
  fix go (l1 : list A) (l2 : list B) : bool :=
    match l1, l2 with
    | [], [] => true
    | x :: r1, y :: r2 => f x y && go r1 r2
    | _, _ => false
    end.

(** Python's [==] on the value universe.  [bool] is a subclass of [int]
    ([True == 1]); sequences compare element by element; sets and
    dictionaries compare by size and membership, whatever the order.  A
    [VSet] or [VDict] term lists the elements of a well-formed Python
    container (pairwise different elements, respectively keys). *)
Fixpoint py_eq (a b : pyval) {struct a} : bool :=
  match a, b with
  | VNone, VNone => true
  | VBool x, VBool y => Bool.eqb x y
  | VBool x, VInt y => Z.eqb (Z.b2z x) y
  | VInt x, VBool y => Z.eqb x (Z.b2z y)
  | VInt x, VInt y => Z.eqb x y
  | VStr x, VStr y => String.eqb x y
  | VList x, VList y => list_eqb (fun e e' => py_eq e e') x y
  | VTuple x, VTuple y => list_eqb (fun e e' => py_eq e e') x y
  | VSet x, VSet y =>
      Nat.eqb (List.length x) (List.length y)
      && forallb (fun e => existsb (fun e' => py_eq e e') y) x
  | VDict x, VDict y
  | VDict x, VImmutableDict y
  | VImmutableDict x, VDict y
  | VImmutableDict x, VImmutableDict y =>
      Nat.eqb (List.length x) (List.length y)
      && forallb (fun kv =>
                    let '(k, v) := kv in
                    existsb (fun kv' => py_eq k (fst kv') && py_eq v (snd kv')) y) x
  | _, _ => false
  end.

(** *** [repr] and [str] of values *)

Definition join (sep : string) (l : list string) : string :=
  String.concat sep l.

Definition hex_digit (n : nat) : ascii :=
  match n with
  | 0 => "0" | 1 => "1" | 2 => "2" | 3 => "3" | 4 => "4" | 5 => "5" | 6 => "6"
  | 7 => "7" | 8 => "8" | 9 => "9" | 10 => "a" | 11 => "b" | 12 => "c"
  | 13 => "d" | 14 => "e" | _ => "f"
  end%char.

Fixpoint str_contains_char (c : ascii) (s : string) : bool :=
  match s with
  | EmptyString => false
  | String c' r => Ascii.eqb c c' || str_contains_char c r
  end.

Definition backslash : ascii := ascii_of_nat 92.
Definition double_quote : ascii := ascii_of_nat 34.
Definition single_quote : ascii := ascii_of_nat 39.

Definition escape_char (quote : ascii) (c : ascii) : string :=
  let n := nat_of_ascii c in
  let escaped (letter : ascii) := String backslash (String letter EmptyString) in
  if Ascii.eqb c quote || Ascii.eqb c backslash then escaped c
  else if Nat.eqb n 10 then escaped "n"%char
  else if Nat.eqb n 13 then escaped "r"%char
  else if Nat.eqb n 9 then escaped "t"%char
  else if Nat.ltb n 32 || Nat.eqb n 127
       then escaped "x"%char
            ++ String (hex_digit (n / 16)) (String (hex_digit (n mod 16)) EmptyString)
  else String c EmptyString.

Fixpoint escape_string (quote : ascii) (s : string) : string :=
  match s with
  | EmptyString => EmptyString
  | String c r => escape_char quote c ++ escape_string quote r
  end.

(** [repr] of a text string: single quotes, unless the text has a single
    quote and no double quote. *)
Definition repr_string (s : string) : string :=
  let quote :=
    if str_contains_char single_quote s && negb (str_contains_char double_quote s)
    then double_quote else single_quote in
  String quote (escape_string quote s ++ String quote EmptyString).

Definition repr_int (z : Z) : string := NilZero.string_of_int (Z.to_int z).

Fixpoint py_repr (v : pyval) : string :=
  let items_repr (items : list (pyval * pyval)) :=
    "{" ++ join ", " (map (fun kv => let '(k, x) := kv in
                                     py_repr k ++ ": " ++ py_repr x) items) ++ "}" in
  match v with
  | VNone => "None"
  | VBool true => "True"
  | VBool false => "False"
  | VInt z => repr_int z
  | VStr s => repr_string s
  | VList l => "[" ++ join ", " (map py_repr l) ++ "]"
  | VTuple [x] => "(" ++ py_repr x ++ ",)"
  | VTuple l => "(" ++ join ", " (map py_repr l) ++ ")"
  | VSet [] => "set()"
  | VSet l => "{" ++ join ", " (map py_repr l) ++ "}"
  | VDict items => items_repr items
  | VImmutableDict items => items_repr items
  end.

(** What ["{}".format(value)] inserts. *)
Definition py_str (v : pyval) : string :=
  match v with
  | VStr s => s
  | _ => py_repr v
  end.

(** [needle in hay] on text. *)
Fixpoint contains (needle hay : string) : bool :=
  String.prefix needle hay
  || match hay with
     | EmptyString => false
     | String _ rest => contains needle rest
     end.

(** ** Dictionaries keyed by names

    [kwargs] and every instance [__dict__]: items in insertion order. *)

Definition dict : Type := list (string * pyval).

Definition dict_keys (d : dict) : list string := map fst d.

Definition dict_values (d : dict) : list pyval := map snd d.

Fixpoint dict_get (k : string) (d : dict) : option pyval :=
  match d with
  | [] => None
  | (k', v) :: r => if String.eqb k k' then Some v else dict_get k r
  end.

(** [d[k] = v]: an existing key keeps its position, a new key goes last. *)
Fixpoint dict_set (d : dict) (k : string) (v : pyval) : dict :=
  match d with
  | [] => [(k, v)]
  | (k', v') :: r =>
      if String.eqb k k' then (k, v) :: r else (k', v') :: dict_set r k v
  end.

(** [d.update(other)] *)
Definition dict_update (d : dict) (other : list (string * pyval)) : dict :=
  fold_left (fun acc kv => dict_set acc (fst kv) (snd kv)) other d.

(** [dict(pairs)]: a later pair replaces an earlier one with the same key. *)
Definition dict_of_pairs (pairs : list (string * pyval)) : dict :=
  dict_update [] pairs.

(** [a == b] on dictionaries: same size, and every key of [a] is bound in
    [b] to an equal value. *)
Definition dict_eqb (a b : dict) : bool :=
  Nat.eqb (List.length a) (List.length b)
  && forallb (fun kv =>
                match dict_get (fst kv) b with
                | Some v' => py_eq (snd kv) v'
                | None => false
                end) a.

(** ** Declared constructor shape *)

(** What [self.__init__] resolves to: a Python function with its
    signature, or the slot wrapper inherited from [object] when the class
    declares no [__init__]. *)
Inductive init_method : Type :=
| PyFunction (args : list string) (varargs keywords : option string)
             (defaults : option (list pyval))
| SlotWrapper.

(** [inspect.getargspec]: raises [TypeError] on what is not a Python
    function. *)
Definition getargspec (method : init_method)
  : outcome (list string * option string * option string * option (list pyval)) :=
  match method with
  | PyFunction args varargs keywords defaults => Ok (args, varargs, keywords, defaults)
  | SlotWrapper => Raise TypeError
  end.

Module ArgsSpec.

Record t : Type := Build {
  _args : list string;
  _varargs : option string;
  _keywords : option string;
  _defaults : option (list pyval)
}.

Definition __init__ (method : init_method) : outcome t :=
  match getargspec method with
  | Ok (a, v, k, d) => Ok (Build a v k d)
  | Raise TypeError => Raise NotDeclaredArgsException
  | Raise e => Raise e
  end.

Definition args (self : t) : list string := _args self.
Definition varargs (self : t) : option string := _varargs self.
Definition keywords (self : t) : option string := _keywords self.
Definition defaults (self : t) : option (list pyval) := _defaults self.

End ArgsSpec.

(** ** Classes and instances *)

(** How a class defines a name: the [hash] property of [ValueObject]
    (lines 109-111 of the source), another data descriptor (a property, a
    slot), or a method or plain class attribute. *)
Inductive attribute_kind : Type :=
| HashProperty
| DataDescriptor
| ClassValue.

Fixpoint lookup_name {A : Type} (name : string) (l : list (string * A)) : option A :=
  match l with
  | [] => None
  | (k, a) :: r => if String.eqb name k then Some a else lookup_name name r
  end.

(** The part of a class an instance reaches through [self.__class__],
    [self.__init__] and attribute lookup.  [tp_namespace] lists what the
    class and its user-written bases define; what [ValueObject] and [object]
    define is [base_namespace]. *)
Record pytype : Type := {
  tp_name : string;
  tp_init : init_method;
  tp_namespace : list (string * attribute_kind)
}.

(** The names every class derived from [ValueObject] finds on its bases:
    the methods and the [hash] property of the source, and what [object]
    and class creation give. *)
Definition base_namespace : list (string * attribute_kind) :=
  [("hash", HashProperty);
   ("__class__", DataDescriptor); ("__dict__", DataDescriptor);
   ("__weakref__", DataDescriptor);
   ("__new__", ClassValue); ("__setattr__", ClassValue); ("__eq__", ClassValue);
   ("__ne__", ClassValue); ("__str__", ClassValue); ("__repr__", ClassValue);
   ("__hash__", ClassValue); ("__init__", ClassValue); ("__doc__", ClassValue);
   ("__module__", ClassValue); ("__delattr__", ClassValue); ("__dir__", ClassValue);
   ("__format__", ClassValue); ("__ge__", ClassValue); ("__getattribute__", ClassValue);
   ("__gt__", ClassValue); ("__init_subclass__", ClassValue); ("__le__", ClassValue);
   ("__lt__", ClassValue); ("__reduce__", ClassValue); ("__reduce_ex__", ClassValue);
   ("__sizeof__", ClassValue); ("__subclasshook__", ClassValue)].

(** What looking a name up on the class finds: the class itself and its
    user-written bases first, then [ValueObject] and [object]. *)
Definition class_lookup (t : pytype) (name : string) : option attribute_kind :=
  match lookup_name name (tp_namespace t) with
  | Some kind => Some kind
  | None => lookup_name name base_namespace
  end.

Record instance : Type := {
  ob_type : pytype;
  ob_dict : dict
}.

(** A class member as [inspect.getmembers] hands it to its predicate: what
    [str(member)] shows and what calling it with two arguments does. *)
Record member : Type := {
  member_str : string;
  member_call : instance -> instance -> outcome pyval
}.

(** [cls_members] is [inspect.getmembers(cls)]: the (name, member) pairs of
    the class and its bases, in name order. *)
Record pyclass : Type := {
  cls_type : pytype;
  cls_members : list (string * member)
}.

Definition MIN_NUMBER_ARGS : nat := 1.

(** The instance's own attribute: what [self.__dict__] binds [name] to,
    and [AttributeError] when it binds none.  It is what attribute lookup
    gives for a name the class does not define. *)
Definition instance_attribute (self : instance) (name : string) : outcome pyval :=
  match dict_get name (ob_dict self) with
  | Some v => Ok v
  | None => Raise (AttributeError name)
  end.

(** [sys.getrecursionlimit()] *)
Definition recursion_limit : nat := 1000.

(** ** [class immutable_dict(dict)] *)

Module immutable_dict.

(** [_immutable], bound to [__setitem__], [__delitem__], [clear],
    [update], [setdefault], [pop] and [popitem]: the items stay. *)
Definition _immutable (self : list (pyval * pyval))
  : list (pyval * pyval) * outcome unit :=
  (self, Raise CannotBeChangeException).

End immutable_dict.

(** ** [class ValueObject] *)

Module ValueObject.

(** *** The helpers nested in [__new__] *)

Definition check_class_are_initialized (args_spec : ArgsSpec.t) (args : list pyval)
  : outcome unit :=
  let init_constructor_without_arguments :=
    Nat.leb (List.length (ArgsSpec.args args_spec)) MIN_NUMBER_ARGS in
  if init_constructor_without_arguments then Raise NotDeclaredArgsException
  else if existsb (fun a => py_eq a VNone) args then Raise ArgWithoutValueException
  else Ok tt.

(** One turn of the loop over [kwargs.items()]: [immutable_dict(value)]
    for an instance of [dict], [tuple(value)] for an instance of [list]
    or [set]; a tuple of a set lists it in its iteration order. *)
Definition replace_item (kwargs : dict) (item : string * pyval) : dict :=
  let '(arg, value) := item in
  let kwargs1 :=
    match value with
    | VDict items | VImmutableDict items => dict_set kwargs arg (VImmutableDict items)
    | _ => kwargs
    end in
  match value with
  | VList elems | VSet elems => dict_set kwargs1 arg (VTuple elems)
  | _ => kwargs1
  end.

Definition replace_mutable_kwargs_with_immutable_types (kwargs : dict) : dict :=
  fold_left replace_item kwargs kwargs.

(** [args_spec.args[:0:-1]] is [rev (tl args)], [defaults[::-1]] is
    [rev defaults]; an absent or empty [defaults] counts as [()]. *)
Definition assign_default_values (args_spec : ArgsSpec.t) (self : instance) : instance :=
  let defaults :=
    match ArgsSpec.defaults args_spec with
    | None => []
    | Some ds => ds
    end in
  {| ob_type := ob_type self;
     ob_dict := dict_update (ob_dict self)
                  (dict_of_pairs (combine (rev (tl (ArgsSpec.args args_spec)))
                                          (rev defaults))) |}.

Definition override_default_values_with_args
    (args_spec : ArgsSpec.t) (args : list pyval) (kwargs : dict) (self : instance)
  : instance :=
  {| ob_type := ob_type self;
     ob_dict := dict_update (ob_dict self)
                  (dict_of_pairs (combine (tl (ArgsSpec.args args_spec)) args
                                  ++ kwargs)%list) |}.

Definition assign_instance_arguments
    (args_spec : ArgsSpec.t) (args : list pyval) (kwargs : dict) (self : instance)
  : instance :=
  override_default_values_with_args args_spec args kwargs
    (assign_default_values args_spec self).

Definition invariant_execute (invariant : member) (self : instance) : outcome bool :=
  return_value <- member_call invariant self self ;;
  match return_value with
  | VBool b => Ok b
  | _ => Raise InvariantReturnValueException
  end.

(** [str(method)] is taken to return a text; the [except TypeError] branch
    of the source, for a member whose [str] raises it, is not modelled. *)
Definition is_invariant (method : member) : bool :=
  contains "invariant_func_wrapper" (member_str method)
  && negb (contains "__init__" (member_str method)).

Definition obtain_invariants (cls : pyclass) : list member :=
  map snd (filter (fun m => is_invariant (snd m)) (cls_members cls)).

(** ['Args values {} violates invariant: {}'.format(...)] *)
Definition violation_message (self : instance) (invariant : member) : string :=
  "Args values " ++ py_str (VList (dict_values (ob_dict self)))
  ++ " violates invariant: " ++ member_str invariant.

Fixpoint check_each_invariant (self : instance) (invariants : list member)
  : outcome unit :=
  match invariants with
  | [] => Ok tt
  | invariant :: rest =>
      holds <- invariant_execute invariant self ;;
      if negb holds
      then Raise (ViolatedInvariantException (violation_message self invariant))
      else check_each_invariant self rest
  end.

Definition check_invariants (cls : pyclass) (self : instance) : outcome unit :=
  check_each_invariant self (obtain_invariants cls).

(** *** [__new__(cls, *args, **kwargs)] *)

Definition __new__ (cls : pyclass) (args : list pyval) (kwargs : dict)
  : outcome instance :=
  let self := {| ob_type := cls_type cls; ob_dict := [] |} in
  args_spec <- ArgsSpec.__init__ (tp_init (ob_type self)) ;;
  check_class_are_initialized args_spec args ;;;
  let kwargs := replace_mutable_kwargs_with_immutable_types kwargs in
  let self := assign_instance_arguments args_spec args kwargs self in
  check_invariants cls self ;;;
  Ok self.

(** *** The instance protocol *)

(** [__setattr__] returns the instance as it leaves it, and the outcome. *)
Definition __setattr__ (self : instance) (name : string) (value : pyval)
  : instance * outcome unit :=
  (self, Raise CannotBeChangeException).

(** [other] is [None] or an object with a [__dict__]. *)
Definition __eq__ (self : instance) (other : option instance) : outcome bool :=
  match other with
  | None => Ok false
  | Some other => Ok (dict_eqb (ob_dict self) (ob_dict other))
  end.

(** [None] has no [__dict__]. *)
Definition __ne__ (self : instance) (other : option instance) : outcome bool :=
  match other with
  | None => Raise (AttributeError "__dict__")
  | Some other => Ok (negb (dict_eqb (ob_dict self) (ob_dict other)))
  end.

Section Hash.

(** The interpreter's [hash] on text. *)
Variable py_hash : string -> Z.

(** [hash(repr(self))], the body of the [hash] property, with [repr_self]
    standing for [repr]. *)
Definition hash_with (repr_self : instance -> outcome string) (self : instance)
  : outcome pyval :=
  text <- repr_self self ;; Ok (VInt (py_hash text)).

(** [getattr(self, name)], with [repr_self] standing for [repr] one call
    deeper.  Attribute lookup takes a data descriptor of the class first
    (the [hash] property is one), then what the instance binds, then any
    other attribute of the class.  What a data descriptor other than
    [hash] evaluates to, or a class attribute that the instance does not
    shadow, is not modelled. *)
Definition getattr (repr_self : instance -> outcome string)
    (self : instance) (name : string) : outcome pyval :=
  match class_lookup (ob_type self) name with
  | Some HashProperty => hash_with repr_self self
  | Some DataDescriptor => Raise (OutsideModel name)
  | Some ClassValue =>
      match dict_get name (ob_dict self) with
      | Some value => Ok value
      | None => Raise (OutsideModel name)
      end
  | None => instance_attribute self name
  end.

(** [__repr__] with [depth] calls left before the interpreter raises
    [RecursionError]. *)
Fixpoint repr_at (depth : nat) (self : instance) : outcome string :=
  match depth with
  | O => Raise RecursionError
  | S deeper =>
      args_spec <- ArgsSpec.__init__ (tp_init (ob_type self)) ;;
      args_values <- mapM (fun arg => value <- getattr (repr_at deeper) self arg ;;
                                      Ok (arg ++ "=" ++ py_str value))
                          (tl (ArgsSpec.args args_spec)) ;;
      Ok (tp_name (ob_type self) ++ "(" ++ join ", " args_values ++ ")")
  end.

Definition __repr__ (self : instance) : outcome string :=
  repr_at recursion_limit self.


(** The [hash] property. *)
Definition hash (self : instance) : outcome pyval := hash_with __repr__ self.


End Hash.

End ValueObject.

(** ** Calling the class

    Calling the class with positional values [args] and keywords [kwargs]
    runs [__new__] with the class and these arguments and then, on the
    instance it returns, [__init__] with the same arguments. *)

(** The position of [name] among [names]. *)
Fixpoint position (name : string) (names : list string) : option nat :=
  match names with
  | [] => None
  | n :: rest => if String.eqb name n then Some 0 else option_map S (position name rest)
  end.

Definition declares {A : Type} (parameter : option A) : bool :=
  match parameter with
  | Some _ => true
  | None => false
  end.

(** The interpreter binding [positionals] positional values (the receiver
    among them) and the keywords [keys] to the parameters of a function:
    no positional value too many unless there is a [*varargs]; every keyword
    names a parameter that no positional value fills, or names none and
    there is a [**keywords]; every parameter without a default gets a
    value. *)
Definition binds_arguments (params : list string) (varargs keywords : option string)
    (defaults : nat) (positionals : nat) (keys : list string) : bool :=
  (Nat.leb positionals (List.length params) || declares varargs)
  && forallb (fun key => match position key params with
                         | Some i => Nat.leb positionals i
                         | None => declares keywords
                         end) keys
  && forallb (fun i => Nat.ltb i positionals
                       || Nat.leb (List.length params) (i + defaults)
                       || match nth_error params i with
                          | Some p => existsb (String.eqb p) keys
                          | None => true
                          end)
             (seq 0 (List.length params)).

(** The call of [self.__init__] for an [__init__] whose body does
    nothing, as value objects declare it: [TypeError] when the arguments do
    not bind.  [object.__init__] takes whatever a class with its own
    [__new__] is called with. *)
Definition init_call (method : init_method) (args : list pyval) (kwargs : dict)
  : outcome unit :=
  match method with
  | PyFunction params varargs keywords defaults =>
      let count := match defaults with Some ds => List.length ds | None => 0 end in
      if binds_arguments params varargs keywords count (S (List.length args))
           (dict_keys kwargs)
      then Ok tt
      else Raise TypeError
  | SlotWrapper => Ok tt
  end.

(** [type.__call__]: a keyword [cls] clashes with the first parameter of
    [__new__], which is named so. *)
Definition type_call (cls : pyclass) (args : list pyval) (kwargs : dict)
  : outcome instance :=
  if existsb (String.eqb "cls") (dict_keys kwargs) then Raise TypeError
  else
    self <- ValueObject.__new__ cls args kwargs ;;
    init_call (tp_init (ob_type self)) args kwargs ;;;
    Ok self.


(** ** Reference definitions

    What the specification says in words, written independently of the
    construction routine; the theorems below compare the two. *)

Module Spec.

(** The frozen variant of a value: a mapping becomes a frozen mapping, an
    ordered collection or a set becomes a fixed-length immutable sequence
    of the same elements, anything else stays. *)
Definition frozen_variant (v : pyval) : pyval :=
  match v with
  | VDict items | VImmutableDict items => VImmutableDict items
  | VList elems | VSet elems => VTuple elems
  | _ => v
  end.

Definition freeze_item (item : string * pyval) : string * pyval :=
  (fst item, frozen_variant (snd item)).

(** The declared default of the field at position [i]: defaults belong to
    the last declared fields, in order. *)
Definition declared_default (fields : list string) (defaults : list pyval) (i : nat)
  : option pyval :=
  let n := List.length fields in
  let m := List.length defaults in
  if Nat.leb n (i + m) then nth_error defaults (i + m - n) else None.

(** Resolution of the field [f] declared at position [i]: keyword value by
    name, else positional value at [i], else declared default. *)
Definition resolve_field (fields : list string) (defaults : list pyval)
    (args : list pyval) (kwargs : dict) (i : nat) (f : string) : option pyval :=
  match dict_get f kwargs with
  | Some v => Some (frozen_variant v)
  | None =>
      match nth_error args i with
      | Some a => Some a
      | None => declared_default fields defaults i
      end
  end.

(** Two bound-fields mappings are equal under per-value equality: the same
    names are bound, to values that compare equal. *)
Definition fields_equal (a b : dict) : Prop :=
  forall k,
    match dict_get k a, dict_get k b with
    | Some x, Some y => py_eq x y = true
    | None, None => True
    | _, _ => False
    end.

(** Two instances differ at a name: one binds it and the other does not,
    or both bind it, to values that do not compare equal. *)
Definition differ (x y : option pyval) : Prop :=
  match x, y with
  | Some u, Some w => py_eq u w = false
  | None, None => False
  | _, _ => True
  end.



End Spec.

(** A run of attribute assignments [self.name = value] on one instance:
    the instance as the run leaves it, and the outcome of each attempt. *)
Fixpoint assign_all (self : instance) (attempts : list (string * pyval))
  : instance * list (outcome unit) :=
  match attempts with
  | [] => (self, [])
  | (name, value) :: rest =>
      let '(self1, r) := ValueObject.__setattr__ self name value in
      let '(self2, rs) := assign_all self1 rest in
      (self2, r :: rs)
  end.

(** The instance as [__new__] has it when [check_invariants] starts:
    fresh, then bound by [assign_instance_arguments] with the keyword
    values as [replace_mutable_kwargs_with_immutable_types] left them. *)
Definition bound_instance (cls : pyclass) (args_spec : ArgsSpec.t)
    (args : list pyval) (kwargs : dict) : instance :=
  ValueObject.assign_instance_arguments args_spec args
    (ValueObject.replace_mutable_kwargs_with_immutable_types kwargs)
    {| ob_type := cls_type cls; ob_dict := [] |}.

(** The fields declared by an [__init__]: its arguments after the receiver. *)
Definition declared_fields (method : init_method) : list string :=
  match method with
  | PyFunction args _ _ _ => tl args
  | SlotWrapper => []
  end.

(** The defaults declared by an [__init__]. *)
Definition declared_defaults (method : init_method) : list pyval :=
  match method with
  | PyFunction _ _ _ (Some ds) => ds
  | _ => []
  end.

(** ** Sample declarations *)

Module Samples.

Definition wrapper_str : string :=
  "<function invariant.<locals>.invariant_func_wrapper at 0x7f>".

Definition init_member : member :=
  {| member_str := "<function Money.__init__ at 0x7e>";
     member_call := fun _ _ => Ok VNone |}.

(** [class Point(ValueObject): def __init__(self, x, y=0): pass] *)
Definition Point : pyclass :=
  {| cls_type := {| tp_name := "Point";
                    tp_init := PyFunction ["self"; "x"; "y"] None None (Some [VInt 0]);
                    tp_namespace := [] |};
     cls_members := [("__init__", init_member)] |}.

(** [amount >= 0], wrapped by the [invariant] decorator. *)
Definition amount_not_negative : member :=
  {| member_str := wrapper_str;
     member_call := fun _ inst =>
       match dict_get "amount" (ob_dict inst) with
       | Some (VInt z) => Ok (VBool (0 <=? z)%Z)
       | Some _ => Raise TypeError
       | None => Raise (AttributeError "amount")
       end |}.

(** [class Money(ValueObject): def __init__(self, amount, currency="USD")] *)
Definition Money : pyclass :=
  {| cls_type := {| tp_name := "Money";
                    tp_init := PyFunction ["self"; "amount"; "currency"] None None
                                 (Some [VStr "USD"]);
                    tp_namespace := [("amount_not_negative", ClassValue)] |};
     cls_members := [("__init__", init_member);
                     ("amount_not_negative", amount_not_negative)] |}.

(** [def __init__(self): pass] *)
Definition Fieldless : pyclass :=
  {| cls_type := {| tp_name := "Fieldless";
                    tp_init := PyFunction ["self"] None None None;
                    tp_namespace := [] |};
     cls_members := [("__init__", init_member)] |}.

(** A class that declares no [__init__] at all. *)
Definition Plain : pyclass :=
  {| cls_type := {| tp_name := "Plain"; tp_init := SlotWrapper; tp_namespace := [] |};
     cls_members := [] |}.

Definition returns_false : member :=
  {| member_str := wrapper_str; member_call := fun _ _ => Ok (VBool false) |}.

Definition returns_zero : member :=
  {| member_str := wrapper_str; member_call := fun _ _ => Ok (VInt 0) |}.

Definition returns_true : member :=
  {| member_str := wrapper_str; member_call := fun _ _ => Ok (VBool true) |}.

Definition one_field (name : string) (members : list (string * member)) : pyclass :=
  {| cls_type := {| tp_name := name;
                    tp_init := PyFunction ["self"; "x"] None None None;
                    tp_namespace := map (fun m => (fst m, ClassValue)) members |};
     cls_members := members |}.

(** Invariants [a_type] (returns [0]) and then [b_false] (returns [False]). *)
Definition ZeroThenFalse : pyclass :=
  one_field "ZeroThenFalse" [("a_type", returns_zero); ("b_false", returns_false)].

(** Invariants [a_false] (returns [False]) and then [b_type] (returns [0]). *)
Definition FalseThenZero : pyclass :=
  one_field "FalseThenZero" [("a_false", returns_false); ("b_type", returns_zero)].

Definition TrueThenFalse : pyclass :=
  one_field "TrueThenFalse" [("a_true", returns_true); ("b_false", returns_false)].

Definition TrueThenZero : pyclass :=
  one_field "TrueThenZero" [("a_true", returns_true); ("b_type", returns_zero)].

(** [def __init__(self, x, **extra): pass] *)
Definition Tagged : pyclass :=
  {| cls_type := {| tp_name := "Tagged";
                    tp_init := PyFunction ["self"; "x"] None (Some "extra") None;
                    tp_namespace := [] |};
     cls_members := [("__init__", init_member)] |}.






(** A text hash to run the examples with. *)
Definition length_hash (s : string) : Z := Z.of_nat (String.length s).

End Samples.

(** ** Reference definitions for the order of binding *)

(** [names] with [k] put last unless it is there already. *)
Definition add_name (names : list string) (k : string) : list string :=
  if existsb (String.eqb k) names then names else names ++ [k].

(** The names of a list in the order of their first occurrence. *)
Definition first_occurrences (names : list string) : list string :=
  fold_left add_name names [].

Module MoreSamples.


(** [class Pair(ValueObject): def __init__(self, x, y): pass] *)
Definition Pair : pyclass :=
  {| cls_type := {| tp_name := "Pair";
                    tp_init := PyFunction ["self"; "x"; "y"] None None None;
                    tp_namespace := [] |};
     cls_members := [("__init__", Samples.init_member)] |}.

End MoreSamples.

(** * Facts *)

Unset Implicit Arguments.
Local Open Scope list_scope.
Import ValueObject.

(** ** Outcomes *)

Lemma bind_ok_inv {A B : Type} (m : outcome A) (k : A -> outcome B) (b : B) :
  bind m k = Ok b -> exists a, m = Ok a /\ k a = Ok b.
Proof.
  destruct m as [a | e]; simpl; intros H.
  - exists a; split; [reflexivity | exact H].
  - discriminate H.
Qed.

Lemma mapM_ext {A B : Type} (f g : A -> outcome B) (l : list A) :
  (forall x, In x l -> f x = g x) -> mapM f l = mapM g l.
Proof.
  induction l as [| x r IH]; simpl; intros H; [reflexivity |].
  rewrite (H x (or_introl eq_refl)), IH; [reflexivity |].
  intros y Hy; apply H; right; exact Hy.
Qed.

(** ** Dictionaries *)

Section DictFacts.

Implicit Types (d : dict) (k : string) (v : pyval).

Lemma dict_get_set_same d k v : dict_get k (dict_set d k v) = Some v.
Proof.
  induction d as [| [k' v'] r IH]; simpl.
  - rewrite String.eqb_refl; reflexivity.
  - destruct (String.eqb k k') eqn:E; simpl.
    + rewrite String.eqb_refl; reflexivity.
    + rewrite E; exact IH.
Qed.

Lemma dict_get_set_other d k k' v :
  k <> k' -> dict_get k (dict_set d k' v) = dict_get k d.
Proof.
  intros Hne.
  assert (Hkk : String.eqb k k' = false) by (apply String.eqb_neq; exact Hne).
  induction d as [| [k0 v0] r IH]; simpl.
  - rewrite Hkk; reflexivity.
  - destruct (String.eqb k' k0) eqn:E; simpl.
    + apply String.eqb_eq in E; subst k0. rewrite Hkk; reflexivity.
    + rewrite IH; reflexivity.
Qed.

Lemma dict_get_app d1 d2 k :
  dict_get k (d1 ++ d2)
  = match dict_get k d1 with Some v => Some v | None => dict_get k d2 end.
Proof.
  induction d1 as [| [k' v'] r IH]; simpl; [reflexivity |].
  destruct (String.eqb k k'); [reflexivity | exact IH].
Qed.

Lemma dict_get_none d k : dict_get k d = None <-> ~ In k (dict_keys d).
Proof.
  induction d as [| [k' v'] r IH]; simpl.
  - split; [intros _ [] | reflexivity].
  - destruct (String.eqb k k') eqn:E.
    + apply String.eqb_eq in E; subst k'.
      split; [discriminate | intros H; exfalso; apply H; left; reflexivity].
    + apply String.eqb_neq in E. rewrite IH.
      split; [intros H [H1 | H1]; [congruence | exact (H H1)]
             | intros H H1; apply H; right; exact H1].
Qed.

Lemma dict_get_some_in d k v : dict_get k d = Some v -> In (k, v) d.
Proof.
  induction d as [| [k' v'] r IH]; simpl; [discriminate |].
  destruct (String.eqb k k') eqn:E.
  - apply String.eqb_eq in E; subst k'. intros H; injection H as ->; left; reflexivity.
  - intros H; right; exact (IH H).
Qed.

Lemma dict_get_in_nodup d k v :
  NoDup (dict_keys d) -> In (k, v) d -> dict_get k d = Some v.
Proof.
  induction d as [| [k' v'] r IH]; simpl; [intros _ [] |].
  intros Hnd [Hin | Hin].
  - injection Hin as -> ->. rewrite String.eqb_refl; reflexivity.
  - inversion Hnd as [| ? ? Hnotin Hnd']; subst.
    destruct (String.eqb k k') eqn:E.
    + apply String.eqb_eq in E; subst k'.
      exfalso; apply Hnotin. exact (in_map fst _ _ Hin).
    + exact (IH Hnd' Hin).
Qed.

Lemma dict_keys_set d k v k' :
  In k' (dict_keys (dict_set d k v)) <-> k' = k \/ In k' (dict_keys d).
Proof.
  induction d as [| [k0 v0] r IH]; simpl.
  - intuition.
  - destruct (String.eqb k k0) eqn:E; simpl.
    + apply String.eqb_eq in E; subst k0. intuition.
    + rewrite IH. intuition.
Qed.

Lemma dict_set_nodup d k v : NoDup (dict_keys d) -> NoDup (dict_keys (dict_set d k v)).
Proof.
  induction d as [| [k0 v0] r IH]; simpl; intros Hnd.
  - constructor; [intros [] | constructor].
  - inversion Hnd as [| ? ? Hnotin Hnd']; subst.
    destruct (String.eqb k k0) eqn:E; simpl.
    + apply String.eqb_eq in E; subst k0. constructor; assumption.
    + apply String.eqb_neq in E.
      constructor; [| exact (IH Hnd')].
      change (~ In k0 (dict_keys (dict_set r k v))).
      rewrite dict_keys_set. intros [H | H]; [congruence | exact (Hnotin H)].
Qed.

Lemma dict_update_nodup other d :
  NoDup (dict_keys d) -> NoDup (dict_keys (dict_update d other)).
Proof.
  unfold dict_update. revert d.
  induction other as [| [k v] r IH]; simpl; intros d Hnd; [exact Hnd |].
  apply IH, dict_set_nodup, Hnd.
Qed.

Lemma dict_of_pairs_nodup pairs : NoDup (dict_keys (dict_of_pairs pairs)).
Proof. apply dict_update_nodup; constructor. Qed.

(** After [d.update(other)], a name reads the last value [other] gives it,
    and the value it had in [d] when [other] gives it none. *)
Lemma dict_get_update other d k :
  dict_get k (dict_update d other)
  = match dict_get k (rev other) with Some v => Some v | None => dict_get k d end.
Proof.
  unfold dict_update. revert d.
  induction other as [| [k' v'] r IH]; simpl; intros d; [reflexivity |].
  rewrite IH, dict_get_app. simpl.
  destruct (dict_get k (rev r)); [reflexivity |].
  destruct (String.eqb k k') eqn:E.
  - apply String.eqb_eq in E; subst k'. apply dict_get_set_same.
  - apply String.eqb_neq in E. apply dict_get_set_other; exact E.
Qed.

Lemma dict_get_rev d k : NoDup (dict_keys d) -> dict_get k (rev d) = dict_get k d.
Proof.
  induction d as [| [k' v'] r IH]; simpl; [reflexivity |].
  intros Hnd. inversion Hnd as [| ? ? Hnotin Hnd']; subst.
  rewrite dict_get_app, (IH Hnd'). simpl.
  destruct (String.eqb k k') eqn:E; [| destruct (dict_get k r); reflexivity].
  apply String.eqb_eq in E; subst k'.
  apply dict_get_none in Hnotin. rewrite Hnotin; reflexivity.
Qed.

Lemma dict_get_of_pairs pairs k : dict_get k (dict_of_pairs pairs) = dict_get k (rev pairs).
Proof.
  unfold dict_of_pairs. rewrite dict_get_update.
  destruct (dict_get k (rev pairs)); reflexivity.
Qed.

(** [d.update(dict(pairs))] *)
Lemma dict_get_update_of_pairs pairs d k :
  dict_get k (dict_update d (dict_of_pairs pairs))
  = match dict_get k (rev pairs) with Some v => Some v | None => dict_get k d end.
Proof.
  rewrite dict_get_update, (dict_get_rev _ k (dict_of_pairs_nodup pairs)), dict_get_of_pairs.
  reflexivity.
Qed.

Lemma combine_keys_nodup (names : list string) (values : list pyval) :
  NoDup names -> NoDup (dict_keys (combine names values)).
Proof.
  revert values.
  induction names as [| n r IH]; intros [| v vs] Hnd; simpl; try constructor.
  - inversion Hnd as [| ? ? Hnotin Hnd']; subst.
    intros Hin. apply Hnotin.
    unfold dict_keys in Hin. apply in_map_iff in Hin as [[n' v'] [Heq Hin]].
    simpl in Heq; subst n'. exact (in_combine_l _ _ _ _ Hin).
  - inversion Hnd; subst. apply IH; assumption.
Qed.

(** In [zip(names, values)] the name at position [i] is paired with the
    value at position [i]. *)
Lemma dict_get_combine (names : list string) (values : list pyval) i k :
  NoDup names -> nth_error names i = Some k ->
  dict_get k (combine names values) = nth_error values i.
Proof.
  revert values i.
  induction names as [| n r IH]; intros values i Hnd Hi.
  - destruct i; discriminate Hi.
  - inversion Hnd as [| ? ? Hnotin Hnd']; subst.
    destruct i as [| i]; simpl in Hi.
    + injection Hi as ->. destruct values as [| v vs]; simpl; [reflexivity |].
      rewrite String.eqb_refl; reflexivity.
    + assert (Hne : String.eqb k n = false).
      { apply String.eqb_neq. intros ->. apply Hnotin. exact (nth_error_In _ _ Hi). }
      destruct values as [| v vs]; simpl.
      * reflexivity.
      * rewrite Hne. exact (IH vs i Hnd' Hi).
Qed.

(** A name that is not listed is not bound by [zip(names, values)]. *)
Lemma dict_get_combine_absent (names : list string) (values : list pyval) k :
  ~ In k names -> dict_get k (combine names values) = None.
Proof.
  intros Hnotin. apply dict_get_none. intros Hin. apply Hnotin.
  unfold dict_keys in Hin. apply in_map_iff in Hin as [[n v] [Heq Hin]].
  simpl in Heq; subst n. exact (in_combine_l _ _ _ _ Hin).
Qed.

End DictFacts.

(** ** Freezing of keyword values *)

Lemma replace_item_frozen kwargs arg value :
  replace_item kwargs (arg, value)
  = if isinstance_dict value || isinstance_list_or_set value
    then dict_set kwargs arg (Spec.frozen_variant value)
    else kwargs.
Proof. destruct value; reflexivity. Qed.

Lemma frozen_variant_other value :
  isinstance_dict value || isinstance_list_or_set value = false ->
  Spec.frozen_variant value = value.
Proof. destruct value; simpl; intros H; try discriminate H; reflexivity. Qed.

Lemma dict_set_middle (pre post : dict) k v v' :
  ~ In k (dict_keys pre) ->
  dict_set (pre ++ (k, v) :: post) k v' = pre ++ (k, v') :: post.
Proof.
  induction pre as [| [k0 v0] r IH]; simpl; intros Hnotin.
  - rewrite String.eqb_refl; reflexivity.
  - destruct (String.eqb k k0) eqn:E.
    + apply String.eqb_eq in E; subst k0. exfalso; apply Hnotin; left; reflexivity.
    + rewrite IH; [reflexivity |]. intros H; apply Hnotin; right; exact H.
Qed.

Lemma dict_keys_freeze (d : dict) : dict_keys (map Spec.freeze_item d) = dict_keys d.
Proof.
  unfold dict_keys. rewrite map_map. apply map_ext. intros [k v]; reflexivity.
Qed.

Lemma replace_fold (l pre : dict) :
  NoDup (dict_keys (pre ++ l)) ->
  fold_left replace_item l (map Spec.freeze_item pre ++ l) = map Spec.freeze_item (pre ++ l).
Proof.
  revert pre.
  induction l as [| [k v] r IH]; intros pre Hnd; cbn [fold_left].
  - rewrite !app_nil_r; reflexivity.
  - assert (Hstep : replace_item (map Spec.freeze_item pre ++ (k, v) :: r) (k, v)
                    = map Spec.freeze_item (pre ++ [(k, v)]) ++ r).
    { rewrite replace_item_frozen, map_app. simpl. rewrite <- app_assoc. simpl.
      destruct (isinstance_dict v || isinstance_list_or_set v) eqn:E.
      - apply dict_set_middle. rewrite dict_keys_freeze.
        unfold dict_keys in Hnd. rewrite map_app in Hnd. simpl in Hnd.
        intros Hin. apply (NoDup_remove_2 _ _ _ Hnd). apply in_or_app; left; exact Hin.
      - unfold Spec.freeze_item; simpl. rewrite (frozen_variant_other v E). reflexivity. }
    rewrite Hstep, IH.
    + rewrite <- app_assoc; reflexivity.
    + rewrite <- app_assoc; exact Hnd.
Qed.

(** On a dictionary, the loop of [replace_mutable_kwargs_with_immutable_types]
    replaces every value by its frozen variant and keeps names and order. *)
Lemma replace_mutable_frozen (kwargs : dict) :
  NoDup (dict_keys kwargs) ->
  replace_mutable_kwargs_with_immutable_types kwargs = map Spec.freeze_item kwargs.
Proof.
  intros Hnd. exact (replace_fold kwargs [] Hnd).
Qed.

Lemma dict_get_freeze (d : dict) k :
  dict_get k (map Spec.freeze_item d) = option_map Spec.frozen_variant (dict_get k d).
Proof.
  induction d as [| [k' v'] r IH]; simpl; [reflexivity |].
  destruct (String.eqb k k'); [reflexivity | exact IH].
Qed.

(** ** Binding *)

(** What a name is bound to once [assign_instance_arguments] is done: the
    frozen keyword value, else the value [zip] pairs with it among the
    positional ones, else the one it pairs with among the defaults. *)
Lemma bound_get cls a v k d args kwargs name :
  NoDup (tl a) -> NoDup (dict_keys kwargs) ->
  dict_get name (ob_dict (bound_instance cls (ArgsSpec.Build a v k d) args kwargs))
  = match dict_get name kwargs with
    | Some x => Some (Spec.frozen_variant x)
    | None =>
        match dict_get name (combine (tl a) args) with
        | Some x => Some x
        | None => dict_get name (combine (rev (tl a))
                                         (rev (match d with Some ds => ds | None => [] end)))
        end
    end.
Proof.
  intros Hfields Hkw.
  unfold bound_instance, assign_instance_arguments, override_default_values_with_args,
    assign_default_values. simpl.
  rewrite !dict_get_update_of_pairs. simpl.
  rewrite rev_app_distr, dict_get_app.
  rewrite (replace_mutable_frozen kwargs Hkw).
  rewrite dict_get_rev by (rewrite dict_keys_freeze; exact Hkw).
  rewrite dict_get_freeze.
  destruct (dict_get name kwargs); simpl; [reflexivity |].
  rewrite dict_get_rev by (apply combine_keys_nodup; exact Hfields).
  destruct (dict_get name (combine (tl a) args)); [reflexivity |].
  rewrite dict_get_rev by (apply combine_keys_nodup, NoDup_rev; exact Hfields).
  destruct (dict_get name _); reflexivity.
Qed.

(** [zip(args[:0:-1], defaults[::-1])] gives the field at position [i] the
    default counted from the end. *)
Lemma default_by_position (fields : list string) (defaults : list pyval) i f :
  NoDup fields -> nth_error fields i = Some f ->
  dict_get f (combine (rev fields) (rev defaults)) = Spec.declared_default fields defaults i.
Proof.
  intros Hnd Hi.
  assert (Hlt : i < List.length fields) by (apply nth_error_Some; congruence).
  assert (Hrev : nth_error (rev fields) (List.length fields - S i) = Some f).
  { rewrite nth_error_rev.
    destruct (Nat.ltb_spec (List.length fields - S i) (List.length fields)) as [_ | Hge]; [| lia].
    replace (List.length fields - S (List.length fields - S i)) with i by lia. exact Hi. }
  rewrite (dict_get_combine _ _ _ _ (NoDup_rev Hnd) Hrev).
  unfold Spec.declared_default. rewrite nth_error_rev.
  destruct (Nat.ltb_spec (List.length fields - S i) (List.length defaults)) as [Hin | Hout];
    destruct (Nat.leb_spec (List.length fields) (i + List.length defaults)) as [Hle | Hgt];
    try lia; [| reflexivity].
  f_equal; lia.
Qed.

(** ** What [__new__] does, step by step *)

Lemma new_unfold cls a v k d args kwargs :
  tp_init (cls_type cls) = PyFunction a v k d ->
  __new__ cls args kwargs
  = if Nat.leb (List.length a) MIN_NUMBER_ARGS then Raise NotDeclaredArgsException
    else if existsb (fun x => py_eq x VNone) args then Raise ArgWithoutValueException
    else check_invariants cls (bound_instance cls (ArgsSpec.Build a v k d) args kwargs) ;;;
         Ok (bound_instance cls (ArgsSpec.Build a v k d) args kwargs).
Proof.
  intros Hinit. unfold __new__, check_class_are_initialized. simpl. rewrite Hinit. simpl.
  destruct (Nat.leb (List.length a) MIN_NUMBER_ARGS); [reflexivity |].
  destruct (existsb _ args); reflexivity.
Qed.

Lemma new_no_init cls args kwargs :
  tp_init (cls_type cls) = SlotWrapper ->
  __new__ cls args kwargs = Raise NotDeclaredArgsException.
Proof. intros Hinit. unfold __new__. simpl. rewrite Hinit. reflexivity. Qed.

(** A successful construction went through every guard. *)
Lemma new_ok_inv cls args kwargs self :
  __new__ cls args kwargs = Ok self ->
  exists a v k d,
    tp_init (cls_type cls) = PyFunction a v k d
    /\ MIN_NUMBER_ARGS < List.length a
    /\ existsb (fun x => py_eq x VNone) args = false
    /\ self = bound_instance cls (ArgsSpec.Build a v k d) args kwargs
    /\ check_invariants cls self = Ok tt.
Proof.
  intros Hnew.
  destruct (tp_init (cls_type cls)) as [a v k d |] eqn:Hinit.
  - rewrite (new_unfold cls a v k d args kwargs Hinit) in Hnew.
    destruct (Nat.leb_spec (List.length a) MIN_NUMBER_ARGS) as [Hle | Hgt]; [discriminate Hnew |].
    destruct (existsb _ args) eqn:Hnone; [discriminate Hnew |].
    apply bind_ok_inv in Hnew as [[] [Hchk Hret]]. injection Hret as <-.
    exists a, v, k, d. repeat split; assumption.
  - rewrite (new_no_init cls args kwargs Hinit) in Hnew. discriminate Hnew.
Qed.

Lemma py_eq_none x : py_eq x VNone = true <-> x = VNone.
Proof. destruct x; simpl; split; intros H; try discriminate H; reflexivity. Qed.

Lemma none_in_args (args : list pyval) :
  existsb (fun x => py_eq x VNone) args = true <-> In VNone args.
Proof.
  rewrite existsb_exists. split.
  - intros [x [Hin Heq]]. apply py_eq_none in Heq; subst x. exact Hin.
  - intros Hin. exists VNone. split; [exact Hin | reflexivity].
Qed.

Ltac distinct_names :=
  repeat (constructor; [simpl; intuition discriminate |]); constructor.

(** ** Parameter binding *)

(** The value bound to a declared field is the one the specification's
    resolution order picks. *)
Lemma bound_field_resolved cls args kwargs self :
  NoDup (declared_fields (tp_init (cls_type cls))) ->
  NoDup (dict_keys kwargs) ->
  __new__ cls args kwargs = Ok self ->
  forall i f,
    nth_error (declared_fields (tp_init (cls_type cls))) i = Some f ->
    dict_get f (ob_dict self)
    = Spec.resolve_field (declared_fields (tp_init (cls_type cls)))
        (declared_defaults (tp_init (cls_type cls))) args kwargs i f.
Proof.
  intros Hfields Hkw Hnew i f Hi.
  destruct (new_ok_inv _ _ _ _ Hnew) as (a & v & k & d & Hinit & _ & _ & Hself & _).
  rewrite Hinit in *. simpl in Hfields, Hi.
  rewrite Hself, (bound_get cls a v k d args kwargs f Hfields Hkw).
  unfold Spec.resolve_field.
  destruct (dict_get f kwargs); [reflexivity |].
  rewrite (dict_get_combine _ args _ _ Hfields Hi).
  destruct (nth_error args i); [reflexivity |].
  rewrite (default_by_position _ _ _ _ Hfields Hi).
  destruct d; reflexivity.
Qed.

(** C1.  For a successfully constructed instance, the value bound to the
    field declared at position [i] is resolved with precedence keyword
    value by name (as the guard froze it), then positional value at [i],
    then declared default: a keyword value overrides a positional value and
    a default, a positional value overrides a default. *)
Theorem binding_precedence cls args kwargs self :
  NoDup (declared_fields (tp_init (cls_type cls))) ->
  NoDup (dict_keys kwargs) ->
  __new__ cls args kwargs = Ok self ->
  forall i f,
    nth_error (declared_fields (tp_init (cls_type cls))) i = Some f ->
    dict_get f (ob_dict self)
    = Spec.resolve_field (declared_fields (tp_init (cls_type cls)))
        (declared_defaults (tp_init (cls_type cls))) args kwargs i f
    /\ (forall x, dict_get f kwargs = Some x ->
                  instance_attribute self f = Ok (Spec.frozen_variant x))
    /\ (forall x, dict_get f kwargs = None -> nth_error args i = Some x ->
                  instance_attribute self f = Ok x)
    /\ (forall x, dict_get f kwargs = None -> nth_error args i = None ->
                  Spec.declared_default (declared_fields (tp_init (cls_type cls)))
                    (declared_defaults (tp_init (cls_type cls))) i = Some x ->
                  instance_attribute self f = Ok x).
Proof.
  intros Hfields Hkw Hnew i f Hi.
  pose proof (bound_field_resolved cls args kwargs self Hfields Hkw Hnew i f Hi) as Hget.
  split; [exact Hget |].
  unfold instance_attribute. rewrite Hget. unfold Spec.resolve_field.
  repeat split; intros x.
  - intros ->. reflexivity.
  - intros -> ->. reflexivity.
  - intros -> -> ->. reflexivity.
Qed.

(** For [Point(x, y=0)], constructing with positional [1] and keyword
    [y=5] yields [x=1, y=5]. *)
Lemma binding_precedence_witness :
  exists self,
    __new__ Samples.Point [VInt 1] [("y", VInt 5)] = Ok self
    /\ instance_attribute self "x" = Ok (VInt 1)
    /\ instance_attribute self "y" = Ok (VInt 5).
Proof.
  eexists. split; [reflexivity |].
  assert (Hfields : NoDup (declared_fields (tp_init (cls_type Samples.Point))))
    by (simpl; distinct_names).
  assert (Hkw : NoDup (dict_keys [("y", VInt 5)])) by (simpl; distinct_names).
  split.
  - exact (proj1 (proj2 (proj2
      (binding_precedence Samples.Point [VInt 1] [("y", VInt 5)] _ Hfields Hkw eq_refl
         0 "x" eq_refl))) (VInt 1) eq_refl eq_refl).
  - exact (proj1 (proj2
      (binding_precedence Samples.Point [VInt 1] [("y", VInt 5)] _ Hfields Hkw eq_refl
         1 "y" eq_refl)) (VInt 5) eq_refl).
Defined.

(** A keyword value wins over a positional value for the same field, and
    a positional value over the default. *)
Example keyword_over_positional :
  __new__ Samples.Point [VInt 1; VInt 2] [("x", VInt 7)]
  = Ok {| ob_type := cls_type Samples.Point;
          ob_dict := [("y", VInt 2); ("x", VInt 7)] |}.
Proof. reflexivity. Qed.

(** ** Freezing *)

(** C2, as the code has it.  Every value supplied by keyword is bound in
    its frozen variant: a mapping as an [immutable_dict] of the same items,
    a list or a set as a tuple of the same elements (the elements are kept
    as they are: freezing is shallow), anything else unchanged.  A value
    supplied positionally, or taken from the declared defaults, is bound as
    it is. *)
Theorem keyword_values_frozen cls args kwargs self :
  NoDup (declared_fields (tp_init (cls_type cls))) ->
  NoDup (dict_keys kwargs) ->
  __new__ cls args kwargs = Ok self ->
  (forall name value,
      dict_get name kwargs = Some value ->
      (forall items, value = VDict items \/ value = VImmutableDict items ->
                     instance_attribute self name = Ok (VImmutableDict items))
      /\ (forall elems, value = VList elems \/ value = VSet elems ->
                        instance_attribute self name = Ok (VTuple elems))
      /\ (isinstance_dict value = false -> isinstance_list_or_set value = false ->
          instance_attribute self name = Ok value))
  /\ (forall i f value,
         nth_error (declared_fields (tp_init (cls_type cls))) i = Some f ->
         dict_get f kwargs = None ->
         nth_error args i = Some value ->
         instance_attribute self f = Ok value)
  /\ (forall i f value,
         nth_error (declared_fields (tp_init (cls_type cls))) i = Some f ->
         dict_get f kwargs = None ->
         nth_error args i = None ->
         Spec.declared_default (declared_fields (tp_init (cls_type cls)))
           (declared_defaults (tp_init (cls_type cls))) i = Some value ->
         instance_attribute self f = Ok value).
Proof.
  intros Hfields Hkw Hnew. split; [| split].
  - intros name value Hname.
    destruct (new_ok_inv _ _ _ _ Hnew) as (a & v & k & d & Hinit & _ & _ & Hself & _).
    rewrite Hinit in Hfields. simpl in Hfields.
    assert (Hget : instance_attribute self name = Ok (Spec.frozen_variant value)).
    { unfold instance_attribute.
      rewrite Hself, (bound_get cls a v k d args kwargs name Hfields Hkw), Hname.
      reflexivity. }
    rewrite Hget. repeat split.
    + intros items [-> | ->]; reflexivity.
    + intros elems [-> | ->]; reflexivity.
    + intros Hd Hl. rewrite frozen_variant_other; [reflexivity |].
      rewrite Hd, Hl; reflexivity.
  - intros i f value Hi Hnone Harg. unfold instance_attribute.
    rewrite (bound_field_resolved cls args kwargs self Hfields Hkw Hnew i f Hi).
    unfold Spec.resolve_field. rewrite Hnone, Harg. reflexivity.
  - intros i f value Hi Hnone Harg Hdef. unfold instance_attribute.
    rewrite (bound_field_resolved cls args kwargs self Hfields Hkw Hnew i f Hi).
    unfold Spec.resolve_field. rewrite Hnone, Harg, Hdef. reflexivity.
Qed.

(** Keyword values are frozen at the top level only: the list inside the
    list, and the list inside the mapping, stay lists. *)
Lemma keyword_values_frozen_witness :
  exists self,
    __new__ Samples.Point []
      [("x", VList [VList [VInt 1]; VInt 2]); ("y", VDict [(VStr "k", VList [])])]
    = Ok self
    /\ instance_attribute self "x" = Ok (VTuple [VList [VInt 1]; VInt 2])
    /\ instance_attribute self "y" = Ok (VImmutableDict [(VStr "k", VList [])]).
Proof.
  eexists. split; [reflexivity |].
  assert (Hfields : NoDup (declared_fields (tp_init (cls_type Samples.Point))))
    by (simpl; distinct_names).
  assert (Hkw : NoDup (dict_keys [("x", VList [VList [VInt 1]; VInt 2]);
                                  ("y", VDict [(VStr "k", VList [])])]))
    by (simpl; distinct_names).
  pose proof (proj1 (keyword_values_frozen Samples.Point [] _ _ Hfields Hkw eq_refl))
    as Hfrozen.
  split.
  - exact (proj1 (proj2 (Hfrozen "x" _ eq_refl)) _ (or_introl eq_refl)).
  - exact (proj1 (Hfrozen "y" _ eq_refl) _ (or_introl eq_refl)).
Defined.

(** A list and a mapping supplied positionally are bound as they are, not
    as a tuple and an [immutable_dict]. *)
Lemma positional_values_not_frozen :
  isinstance_list_or_set (VList [VInt 1; VInt 2]) = true
  /\ isinstance_dict (VDict []) = true
  /\ __new__ Samples.Point [VList [VInt 1; VInt 2]; VDict []] []
     = Ok {| ob_type := cls_type Samples.Point;
             ob_dict := [("y", VDict []); ("x", VList [VInt 1; VInt 2])] |}.
Proof. repeat split. Qed.

(** ** Guards *)

(** C9.  A type that declares no field beyond the receiver (its [__init__]
    takes the receiver alone or nothing, or the type declares no [__init__]
    at all) raises [NotDeclaredArgsException] on every construction
    request; no instance is returned. *)
Theorem no_fields_declaration_error cls args kwargs :
  declared_fields (tp_init (cls_type cls)) = [] ->
  __new__ cls args kwargs = Raise NotDeclaredArgsException.
Proof.
  intros Hnone.
  destruct (tp_init (cls_type cls)) as [a v k d |] eqn:Hinit.
  - rewrite (new_unfold cls a v k d args kwargs Hinit).
    simpl in Hnone.
    destruct a as [| receiver [| field rest]]; try discriminate Hnone; reflexivity.
  - exact (new_no_init cls args kwargs Hinit).
Qed.

Lemma no_fields_declaration_error_witness :
  __new__ Samples.Fieldless [VInt 1] [("x", VInt 2)] = Raise NotDeclaredArgsException
  /\ __new__ Samples.Plain [] [] = Raise NotDeclaredArgsException.
Proof.
  split.
  - exact (no_fields_declaration_error Samples.Fieldless [VInt 1] [("x", VInt 2)] eq_refl).
  - exact (no_fields_declaration_error Samples.Plain [] [] eq_refl).
Defined.

(** C8, as the code has it.  For a type that declares at least one field
    beyond the receiver, a construction request with [None] among its
    positional values raises [ArgWithoutValueException]; no instance is
    returned. *)
Theorem none_positional_missing_value cls args kwargs :
  declared_fields (tp_init (cls_type cls)) <> [] ->
  In VNone args ->
  __new__ cls args kwargs = Raise ArgWithoutValueException.
Proof.
  intros Hfields Hin.
  destruct (tp_init (cls_type cls)) as [a v k d |] eqn:Hinit.
  - rewrite (new_unfold cls a v k d args kwargs Hinit).
    destruct a as [| receiver [| field rest]]; simpl in Hfields;
      try (exfalso; apply Hfields; reflexivity).
    simpl. apply none_in_args in Hin. rewrite Hin. reflexivity.
  - exfalso; apply Hfields; reflexivity.
Qed.

Lemma none_positional_missing_value_witness :
  __new__ Samples.Money [VInt 10; VNone] [] = Raise ArgWithoutValueException.
Proof.
  apply (none_positional_missing_value Samples.Money [VInt 10; VNone] []).
  - simpl. discriminate.
  - simpl. right; left; reflexivity.
Defined.

(** The declaration guard comes first: on a type without fields a [None]
    positional value raises [NotDeclaredArgsException]. *)
Lemma none_positional_on_fieldless_type :
  In VNone [VNone]
  /\ __new__ Samples.Fieldless [VNone] [] = Raise NotDeclaredArgsException.
Proof. split; [left; reflexivity | reflexivity]. Qed.

(** ** Immutability of instances *)

(** C5.  On a successfully constructed instance every attribute
    assignment, whatever the name and the value, raises
    [CannotBeChangeException], and leaves the instance as it was: after any
    run of attempts every attribute reads as before. *)
Theorem setattr_always_blocked cls args kwargs self :
  __new__ cls args kwargs = Ok self ->
  (forall name value,
      __setattr__ self name value = (self, Raise CannotBeChangeException))
  /\ (forall attempts,
         fst (assign_all self attempts) = self
         /\ snd (assign_all self attempts)
            = map (fun _ => Raise CannotBeChangeException) attempts
         /\ forall f, instance_attribute (fst (assign_all self attempts)) f = instance_attribute self f).
Proof.
  intros _. split; [reflexivity |].
  assert (Hrun : forall attempts,
             assign_all self attempts
             = (self, map (fun _ => Raise CannotBeChangeException) attempts)).
  { induction attempts as [| [name value] rest IH]; [reflexivity |].
    cbn [assign_all map]. unfold __setattr__. rewrite IH. reflexivity. }
  intros attempts. rewrite (Hrun attempts). repeat split.
Qed.

Lemma setattr_always_blocked_witness :
  exists self,
    __new__ Samples.Money [VInt 10] [] = Ok self
    /\ __setattr__ self "amount" (VInt 20) = (self, Raise CannotBeChangeException)
    /\ instance_attribute (fst (assign_all self [("amount", VInt 20); ("owner", VStr "me")])) "amount"
       = Ok (VInt 10).
Proof.
  eexists. split; [reflexivity |].
  pose proof (setattr_always_blocked Samples.Money [VInt 10] [] _ eq_refl) as [Hone Hrun].
  split.
  - exact (Hone "amount" (VInt 20)).
  - rewrite (proj2 (proj2 (Hrun [("amount", VInt 20); ("owner", VStr "me")])) "amount").
    reflexivity.
Defined.

(** ** Invariants *)

(** Discovery goes by the wrapper's name in [str(member)] and leaves
    [__init__] out. *)
Example money_invariants :
  obtain_invariants Samples.Money = [Samples.amount_not_negative]
  /\ is_invariant Samples.init_member = false
  /\ is_invariant {| member_str := "<function invariant_func_wrapper __init__>";
                     member_call := fun _ _ => Ok (VBool false) |} = false.
Proof. repeat split. Qed.

Lemma invariant_execute_true inv self :
  member_call inv self self = Ok (VBool true) -> invariant_execute inv self = Ok true.
Proof. unfold invariant_execute. intros ->. reflexivity. Qed.

(** Invariants that return [True] let the loop go on. *)
Lemma check_each_skip self before rest :
  (forall p, In p before -> member_call p self self = Ok (VBool true)) ->
  check_each_invariant self (before ++ rest) = check_each_invariant self rest.
Proof.
  induction before as [| p r IH]; intros Hall; [reflexivity |].
  cbn [app check_each_invariant].
  rewrite (invariant_execute_true p self (Hall p (or_introl eq_refl))). simpl.
  apply IH. intros q Hq. apply Hall. right; exact Hq.
Qed.

(** The loop ends normally only when every invariant returned [True]. *)
Lemma check_each_ok self invariants :
  check_each_invariant self invariants = Ok tt ->
  forall p, In p invariants -> member_call p self self = Ok (VBool true).
Proof.
  induction invariants as [| q r IH]; intros Hok p Hin; [destruct Hin |].
  cbn [check_each_invariant] in Hok. unfold invariant_execute in Hok.
  destruct (member_call q self self) as [value | e] eqn:Hcall; [| discriminate Hok].
  destruct value as [| [|] | | | | | | |]; simpl in Hok; try discriminate Hok.
  destruct Hin as [<- | Hin]; [exact Hcall | exact (IH Hok p Hin)].
Qed.

Lemma check_each_all_true self invariants :
  (forall p, In p invariants -> member_call p self self = Ok (VBool true)) ->
  check_each_invariant self invariants = Ok tt.
Proof.
  intros Hall. rewrite <- (app_nil_r invariants). rewrite (check_each_skip _ _ _ Hall).
  reflexivity.
Qed.

(** Past the two guards, [__new__] is the invariant loop on the bound
    instance. *)
Lemma new_past_guards cls a v k d args kwargs :
  tp_init (cls_type cls) = PyFunction a v k d ->
  MIN_NUMBER_ARGS < List.length a ->
  ~ In VNone args ->
  __new__ cls args kwargs
  = check_invariants cls (bound_instance cls (ArgsSpec.Build a v k d) args kwargs) ;;;
    Ok (bound_instance cls (ArgsSpec.Build a v k d) args kwargs).
Proof.
  intros Hinit Hlen Hnone.
  rewrite (new_unfold cls a v k d args kwargs Hinit).
  destruct (Nat.leb_spec (List.length a) MIN_NUMBER_ARGS) as [Hle | _]; [lia |].
  destruct (existsb (fun x => py_eq x VNone) args) eqn:E; [| reflexivity].
  exfalso. apply Hnone, none_in_args, E.
Qed.

(** Construction succeeds exactly when the guards pass and every
    discovered invariant returns [True] on the bound instance. *)
Lemma new_succeeds cls a v k d args kwargs :
  tp_init (cls_type cls) = PyFunction a v k d ->
  MIN_NUMBER_ARGS < List.length a ->
  ~ In VNone args ->
  (forall p, In p (obtain_invariants cls) ->
             member_call p (bound_instance cls (ArgsSpec.Build a v k d) args kwargs)
                           (bound_instance cls (ArgsSpec.Build a v k d) args kwargs)
             = Ok (VBool true)) ->
  __new__ cls args kwargs = Ok (bound_instance cls (ArgsSpec.Build a v k d) args kwargs).
Proof.
  intros Hinit Hlen Hnone Hall.
  rewrite (new_past_guards cls a v k d args kwargs Hinit Hlen Hnone).
  unfold check_invariants. rewrite (check_each_all_true _ _ Hall). reflexivity.
Qed.

(** C6, as the code has it.  Construction succeeds only if every
    discovered invariant returns [True].  When construction reaches
    validation and the first discovered invariant that does not return
    [True] returns [False], construction raises
    [ViolatedInvariantException] with a message that carries the current
    field values and the failing predicate; the invariants after it play no
    part, and no instance is returned. *)
Theorem first_failing_invariant_false cls args kwargs :
  (forall self,
      __new__ cls args kwargs = Ok self ->
      forall p, In p (obtain_invariants cls) -> member_call p self self = Ok (VBool true))
  /\ (forall a v k d self before inv after,
         tp_init (cls_type cls) = PyFunction a v k d ->
         MIN_NUMBER_ARGS < List.length a ->
         ~ In VNone args ->
         self = bound_instance cls (ArgsSpec.Build a v k d) args kwargs ->
         obtain_invariants cls = before ++ inv :: after ->
         (forall p, In p before -> member_call p self self = Ok (VBool true)) ->
         member_call inv self self = Ok (VBool false) ->
         __new__ cls args kwargs
         = Raise (ViolatedInvariantException
                    ("Args values " ++ py_str (VList (dict_values (ob_dict self)))
                     ++ " violates invariant: " ++ member_str inv)%string)).
Proof.
  split.
  - intros self Hnew p Hin.
    destruct (new_ok_inv _ _ _ _ Hnew) as (a & v & k & d & _ & _ & _ & _ & Hchk).
    exact (check_each_ok self _ Hchk p Hin).
  - intros a v k d self before inv after Hinit Hlen Hnone Hself Hinvs Hbefore Hfalse.
    rewrite (new_past_guards cls a v k d args kwargs Hinit Hlen Hnone), <- Hself.
    unfold check_invariants. rewrite Hinvs, (check_each_skip _ _ _ Hbefore).
    cbn [check_each_invariant]. unfold invariant_execute. rewrite Hfalse. reflexivity.
Qed.

Lemma first_failing_invariant_false_witness :
  __new__ Samples.TrueThenFalse [VInt 1] []
  = Raise (ViolatedInvariantException
             ("Args values [1] violates invariant: " ++ Samples.wrapper_str)%string)
  /\ __new__ Samples.Money [VInt (-5)] []
     = Raise (ViolatedInvariantException
                ("Args values ['USD', -5] violates invariant: " ++ Samples.wrapper_str)%string).
Proof.
  split.
  - refine (proj2 (first_failing_invariant_false Samples.TrueThenFalse [VInt 1] [])
              ["self"; "x"] None None None _ [Samples.returns_true] Samples.returns_false []
              eq_refl _ _ eq_refl eq_refl _ eq_refl).
    + unfold MIN_NUMBER_ARGS; simpl; lia.
    + simpl; intuition discriminate.
    + intros p [<- | []]; reflexivity.
  - refine (proj2 (first_failing_invariant_false Samples.Money [VInt (-5)] [])
              ["self"; "amount"; "currency"] None None (Some [VStr "USD"]) _ []
              Samples.amount_not_negative [] eq_refl _ _ eq_refl eq_refl _ eq_refl).
    + unfold MIN_NUMBER_ARGS; simpl; lia.
    + simpl; intuition discriminate.
    + intros p [].
Defined.

(** An invariant that returns [False] does not decide the outcome when an
    earlier one returns a value that is not a boolean. *)
Lemma false_after_type_error :
  obtain_invariants Samples.ZeroThenFalse = [Samples.returns_zero; Samples.returns_false]
  /\ (exists self,
         self = bound_instance Samples.ZeroThenFalse
                  (ArgsSpec.Build ["self"; "x"] None None None) [VInt 1] []
         /\ member_call Samples.returns_false self self = Ok (VBool false))
  /\ __new__ Samples.ZeroThenFalse [VInt 1] [] = Raise InvariantReturnValueException.
Proof. repeat split. eexists; split; reflexivity. Qed.

(** C7, as the code has it.  When construction reaches validation and the
    first discovered invariant that does not return [True] returns a value
    that is not a boolean, construction raises
    [InvariantReturnValueException]; no instance is returned. *)
Theorem first_failing_invariant_not_bool cls a v k d args kwargs self before inv after value :
  tp_init (cls_type cls) = PyFunction a v k d ->
  MIN_NUMBER_ARGS < List.length a ->
  ~ In VNone args ->
  self = bound_instance cls (ArgsSpec.Build a v k d) args kwargs ->
  obtain_invariants cls = before ++ inv :: after ->
  (forall p, In p before -> member_call p self self = Ok (VBool true)) ->
  member_call inv self self = Ok value ->
  isinstance_bool value = false ->
  __new__ cls args kwargs = Raise InvariantReturnValueException.
Proof.
  intros Hinit Hlen Hnone Hself Hinvs Hbefore Hcall Hbool.
  rewrite (new_past_guards cls a v k d args kwargs Hinit Hlen Hnone), <- Hself.
  unfold check_invariants. rewrite Hinvs, (check_each_skip _ _ _ Hbefore).
  cbn [check_each_invariant]. unfold invariant_execute. rewrite Hcall.
  destruct value; try discriminate Hbool; reflexivity.
Qed.

Lemma first_failing_invariant_not_bool_witness :
  __new__ Samples.TrueThenZero [VInt 1] [] = Raise InvariantReturnValueException.
Proof.
  refine (first_failing_invariant_not_bool Samples.TrueThenZero
            ["self"; "x"] None None None [VInt 1] [] _
            [Samples.returns_true] Samples.returns_zero [] (VInt 0)
            eq_refl _ _ eq_refl eq_refl _ eq_refl eq_refl).
  - unfold MIN_NUMBER_ARGS; simpl; lia.
  - simpl; intuition discriminate.
  - intros p [<- | []]; reflexivity.
Defined.

(** An invariant that returns a value that is not a boolean does not
    decide the outcome when an earlier one returns [False]. *)
Lemma type_error_after_false :
  obtain_invariants Samples.FalseThenZero = [Samples.returns_false; Samples.returns_zero]
  /\ (exists self,
         self = bound_instance Samples.FalseThenZero
                  (ArgsSpec.Build ["self"; "x"] None None None) [VInt 1] []
         /\ member_call Samples.returns_zero self self = Ok (VInt 0))
  /\ isinstance_bool (VInt 0) = false
  /\ __new__ Samples.FalseThenZero [VInt 1] []
     = Raise (ViolatedInvariantException
                ("Args values [1] violates invariant: " ++ Samples.wrapper_str)%string).
Proof. repeat split. eexists; split; reflexivity. Qed.

(** ** Equality of values *)

Section PyvalInduction.

Variable P : pyval -> Prop.
Hypothesis HNone : P VNone.
Hypothesis HBool : forall b, P (VBool b).
Hypothesis HInt : forall z, P (VInt z).
Hypothesis HStr : forall s, P (VStr s).
Hypothesis HList : forall l, Forall P l -> P (VList l).
Hypothesis HTuple : forall l, Forall P l -> P (VTuple l).
Hypothesis HSet : forall l, Forall P l -> P (VSet l).
Hypothesis HDict :
  forall items, Forall (fun kv => P (fst kv) /\ P (snd kv)) items -> P (VDict items).
Hypothesis HImmutableDict :
  forall items, Forall (fun kv => P (fst kv) /\ P (snd kv)) items ->
                P (VImmutableDict items).

(** Induction on values, with the hypothesis on every element of a
    container. *)
Fixpoint pyval_nested_ind (v : pyval) : P v :=
  let all :=
    fix all (l : list pyval) : Forall P l :=
      match l with
      | [] => Forall_nil P
      | x :: r => Forall_cons x (pyval_nested_ind x) (all r)
      end in
  let all_items :=
    fix all_items (items : list (pyval * pyval))
      : Forall (fun kv => P (fst kv) /\ P (snd kv)) items :=
      match items with
      | [] => Forall_nil _
      | kv :: r =>
          Forall_cons kv (conj (pyval_nested_ind (fst kv)) (pyval_nested_ind (snd kv)))
                      (all_items r)
      end in
  match v with
  | VNone => HNone
  | VBool b => HBool b
  | VInt z => HInt z
  | VStr s => HStr s
  | VList l => HList l (all l)
  | VTuple l => HTuple l (all l)
  | VSet l => HSet l (all l)
  | VDict items => HDict items (all_items items)
  | VImmutableDict items => HImmutableDict items (all_items items)
  end.

End PyvalInduction.

Lemma list_eqb_refl (l : list pyval) :
  Forall (fun x => py_eq x x = true) l -> list_eqb (fun e e' => py_eq e e') l l = true.
Proof.
  induction 1 as [| x r Hx _ IH]; simpl; [reflexivity |].
  rewrite Hx, IH; reflexivity.
Qed.

Lemma members_found (l : list pyval) :
  Forall (fun x => py_eq x x = true) l ->
  forallb (fun e => existsb (fun e' => py_eq e e') l) l = true.
Proof.
  intros Hall. apply forallb_forall. intros e He.
  apply existsb_exists. exists e. split; [exact He |].
  rewrite Forall_forall in Hall. exact (Hall e He).
Qed.

Lemma items_found (items : list (pyval * pyval)) :
  Forall (fun kv => py_eq (fst kv) (fst kv) = true /\ py_eq (snd kv) (snd kv) = true) items ->
  forallb (fun kv => let '(k, v) := kv in
                     existsb (fun kv' => py_eq k (fst kv') && py_eq v (snd kv')) items)
          items = true.
Proof.
  intros Hall. apply forallb_forall. intros [k v] Hkv.
  apply existsb_exists. exists (k, v). split; [exact Hkv |].
  rewrite Forall_forall in Hall. destruct (Hall (k, v) Hkv) as [Hk Hv].
  simpl in *. rewrite Hk, Hv; reflexivity.
Qed.

(** Every value equals itself. *)
Lemma py_eq_refl (v : pyval) : py_eq v v = true.
Proof.
  induction v using pyval_nested_ind; simpl.
  - reflexivity.
  - apply Bool.eqb_reflx.
  - apply Z.eqb_refl.
  - apply String.eqb_refl.
  - apply list_eqb_refl; assumption.
  - apply list_eqb_refl; assumption.
  - rewrite Nat.eqb_refl. apply members_found; assumption.
  - rewrite Nat.eqb_refl. apply items_found; assumption.
  - rewrite Nat.eqb_refl. apply items_found; assumption.
Qed.

(** ** Equality of instances *)

Lemma dict_get_bound_iff (d : dict) k :
  In k (dict_keys d) <-> exists v, dict_get k d = Some v.
Proof.
  pose proof (dict_get_none d k) as Hnone.
  destruct (dict_get k d) as [v |] eqn:E.
  - split; [intros _; exists v; reflexivity |].
    intros _. apply dict_get_some_in in E. exact (in_map fst _ _ E).
  - split; [intros Hin; exfalso; exact (proj1 Hnone eq_refl Hin) |].
    intros [v Hv]; discriminate Hv.
Qed.

(** Dictionary comparison decides equality of the two mappings under
    per-value equality. *)
Lemma dict_eqb_fields_equal (a b : dict) :
  NoDup (dict_keys a) -> NoDup (dict_keys b) ->
  (dict_eqb a b = true <-> Spec.fields_equal a b).
Proof.
  intros Ha Hb. unfold dict_eqb, Spec.fields_equal. split.
  - intros H. apply andb_true_iff in H as [Hlen Hall].
    apply Nat.eqb_eq in Hlen. rewrite forallb_forall in Hall.
    assert (Hincl : incl (dict_keys a) (dict_keys b)).
    { intros k Hk. apply dict_get_bound_iff in Hk as [x Hx].
      apply dict_get_some_in in Hx. specialize (Hall (k, x) Hx). simpl in Hall.
      apply dict_get_bound_iff.
      destruct (dict_get k b) as [y |]; [exists y; reflexivity | discriminate Hall]. }
    assert (Hback : incl (dict_keys b) (dict_keys a)).
    { apply NoDup_length_incl; [exact Ha | | exact Hincl].
      unfold dict_keys. rewrite !length_map. lia. }
    intros k. destruct (dict_get k a) as [x |] eqn:Eka.
    + specialize (Hall (k, x) (dict_get_some_in _ _ _ Eka)). simpl in Hall.
      destruct (dict_get k b); [exact Hall | discriminate Hall].
    + destruct (dict_get k b) as [y |] eqn:Ekb; [| exact I].
      apply (proj1 (dict_get_none a k) Eka). apply Hback.
      apply dict_get_bound_iff. exists y; exact Ekb.
  - intros Heq.
    assert (Hincl : incl (dict_keys a) (dict_keys b)).
    { intros k Hk. apply dict_get_bound_iff in Hk as [x Hx].
      specialize (Heq k). rewrite Hx in Heq. apply dict_get_bound_iff.
      destruct (dict_get k b) as [y |]; [exists y; reflexivity | destruct Heq]. }
    assert (Hback : incl (dict_keys b) (dict_keys a)).
    { intros k Hk. apply dict_get_bound_iff in Hk as [y Hy].
      specialize (Heq k). rewrite Hy in Heq. apply dict_get_bound_iff.
      destruct (dict_get k a) as [x |]; [exists x; reflexivity | destruct Heq]. }
    apply andb_true_iff. split.
    + apply Nat.eqb_eq.
      pose proof (NoDup_incl_length Ha Hincl) as H1.
      pose proof (NoDup_incl_length Hb Hback) as H2.
      unfold dict_keys in H1, H2. rewrite !length_map in H1, H2. lia.
    + apply forallb_forall. intros [k x] Hkx. simpl.
      specialize (Heq k). rewrite (dict_get_in_nodup a k x Ha Hkx) in Heq.
      destruct (dict_get k b); [exact Heq | destruct Heq].
Qed.

(** The [__dict__] of a constructed instance binds each name once. *)
Lemma bound_instance_nodup cls args_spec args kwargs :
  NoDup (dict_keys (ob_dict (bound_instance cls args_spec args kwargs))).
Proof.
  unfold bound_instance, assign_instance_arguments, override_default_values_with_args,
    assign_default_values. simpl.
  apply dict_update_nodup, dict_update_nodup. constructor.
Qed.

Lemma new_ok_nodup cls args kwargs self :
  __new__ cls args kwargs = Ok self -> NoDup (dict_keys (ob_dict self)).
Proof.
  intros Hnew.
  destruct (new_ok_inv _ _ _ _ Hnew) as (a & v & k & d & _ & _ & _ & -> & _).
  apply bound_instance_nodup.
Qed.

Lemma new_ok_type cls args kwargs self :
  __new__ cls args kwargs = Ok self -> ob_type self = cls_type cls.
Proof.
  intros Hnew.
  destruct (new_ok_inv _ _ _ _ Hnew) as (a & v & k & d & _ & _ & _ & -> & _).
  reflexivity.
Qed.


(** Between two instances [!=] is the negation of [==]. *)
Lemma ne_negates_eq_on_instances (a b : instance) :
  exists r, __eq__ a (Some b) = Ok r /\ __ne__ a (Some b) = Ok (negb r).
Proof. eexists; split; reflexivity. Qed.

(** C3.  [==] with [None] returns [False], but [!=] with [None] does not
    return its negation: it reads [None.__dict__] and raises
    [AttributeError]. *)
Theorem ne_with_none_raises (self : instance) :
  __eq__ self None = Ok false
  /\ __ne__ self None = Raise (AttributeError "__dict__").
Proof. split; reflexivity. Qed.

Example money_ne_none :
  exists self,
    __new__ Samples.Money [VInt 10] [] = Ok self
    /\ __eq__ self None = Ok false
    /\ __ne__ self None = Raise (AttributeError "__dict__").
Proof. eexists; repeat split. Qed.

(** ** String representation and hash *)





Section Rendering.

Variable py_hash : string -> Z.






(** At any depth, [__repr__] reads the texts of the declared fields and
    nothing else of the instance. *)
Lemma repr_at_reads_texts depth (a b : instance) :
  ob_type a = ob_type b ->
  (forall f, In f (declared_fields (tp_init (ob_type a))) ->
             option_map py_str (dict_get f (ob_dict a))
             = option_map py_str (dict_get f (ob_dict b))) ->
  repr_at py_hash depth a = repr_at py_hash depth b.
Proof.
  destruct a as [t da], b as [t' db]. cbn [ob_type ob_dict]. intros <- Hsame.
  induction depth as [| depth IH]; [reflexivity |].
  cbn [repr_at ob_type].
  destruct (tp_init t) as [a0 v k d |]; [| reflexivity].
  cbn [declared_fields] in Hsame.
  cbn [ArgsSpec.__init__ getargspec bind ArgsSpec.args ArgsSpec._args].
  rewrite (mapM_ext
             (fun arg => value <- getattr py_hash (repr_at py_hash depth)
                                    {| ob_type := t; ob_dict := da |} arg ;;
                         Ok (arg ++ "=" ++ py_str value)%string)
             (fun arg => value <- getattr py_hash (repr_at py_hash depth)
                                    {| ob_type := t; ob_dict := db |} arg ;;
                         Ok (arg ++ "=" ++ py_str value)%string)).
  - reflexivity.
  - intros f Hf. specialize (Hsame f Hf).
    unfold getattr, hash_with, instance_attribute. cbn [ob_type ob_dict]. rewrite IH.
    destruct (class_lookup t f) as [[] |]; try reflexivity;
      destruct (dict_get f da), (dict_get f db); simpl in Hsame;
      try discriminate Hsame; try reflexivity;
      injection Hsame as Hsame; simpl; rewrite Hsame; reflexivity.
Qed.

(** [__repr__] reads the texts of the declared fields and nothing else. *)
Lemma repr_reads_texts (a b : instance) :
  ob_type a = ob_type b ->
  (forall f, In f (declared_fields (tp_init (ob_type a))) ->
             option_map py_str (dict_get f (ob_dict a))
             = option_map py_str (dict_get f (ob_dict b))) ->
  __repr__ py_hash a = __repr__ py_hash b.
Proof. intros Htype Hsame. exact (repr_at_reads_texts _ a b Htype Hsame). Qed.

(** [__repr__] reads the declared fields and nothing else. *)
Lemma repr_reads_declared_fields (a b : instance) :
  ob_type a = ob_type b ->
  (forall f, In f (declared_fields (tp_init (ob_type a))) ->
             dict_get f (ob_dict a) = dict_get f (ob_dict b)) ->
  __repr__ py_hash a = __repr__ py_hash b.
Proof.
  intros Htype Hsame. apply repr_reads_texts; [exact Htype |].
  intros f Hf. rewrite (Hsame f Hf). reflexivity.
Qed.





End Rendering.


(** A name that is neither declared nor given by keyword is not bound. *)
Lemma undeclared_name_unbound cls args kwargs self name :
  NoDup (declared_fields (tp_init (cls_type cls))) ->
  NoDup (dict_keys kwargs) ->
  __new__ cls args kwargs = Ok self ->
  ~ In name (declared_fields (tp_init (cls_type cls))) ->
  dict_get name (ob_dict self) = option_map Spec.frozen_variant (dict_get name kwargs).
Proof.
  intros Hfields Hkw Hnew Hnotin.
  destruct (new_ok_inv _ _ _ _ Hnew) as (a & v & k & d & Hinit & _ & _ & Hself & _).
  rewrite Hinit in *. simpl in Hfields, Hnotin.
  rewrite Hself, (bound_get cls a v k d args kwargs name Hfields Hkw).
  destruct (dict_get name kwargs); [reflexivity |].
  rewrite (dict_get_combine_absent _ args name Hnotin).
  rewrite dict_get_combine_absent; [reflexivity |].
  intros Hin. apply Hnotin. apply in_rev. exact Hin.
Qed.

(** ** Calling the class *)

Lemma existsb_eqb_in (k : string) (names : list string) :
  existsb (String.eqb k) names = true <-> In k names.
Proof.
  rewrite existsb_exists. split.
  - intros [x [Hin Heq]]. apply String.eqb_eq in Heq; subst x. exact Hin.
  - intros Hin. exists k. split; [exact Hin | apply String.eqb_refl].
Qed.












Section Hashing.

Variable py_hash : string -> Z.



End Hashing.


(** The order in which the names were bound plays no part in [==]. *)
Example money_defaults :
  __new__ Samples.Money [VInt 10] []
  = Ok {| ob_type := cls_type Samples.Money;
          ob_dict := [("currency", VStr "USD"); ("amount", VInt 10)] |}
  /\ dict_eqb [("currency", VStr "USD"); ("amount", VInt 10)]
              [("amount", VInt 10); ("currency", VStr "USD")] = true.
Proof. split; reflexivity. Qed.

(** Per-value equality is coarser than the text: [Point(True)] and
    [Point(1)] are equal, as [True == 1], and read differently. *)
Example equal_values_different_text :
  type_call Samples.Point [VBool true] []
  = Ok {| ob_type := cls_type Samples.Point;
          ob_dict := [("y", VInt 0); ("x", VBool true)] |}
  /\ __eq__ {| ob_type := cls_type Samples.Point;
               ob_dict := [("y", VInt 0); ("x", VBool true)] |}
            (Some {| ob_type := cls_type Samples.Point;
                     ob_dict := [("y", VInt 0); ("x", VInt 1)] |}) = Ok true
  /\ __repr__ Samples.length_hash
       {| ob_type := cls_type Samples.Point;
          ob_dict := [("y", VInt 0); ("x", VBool true)] |}
     = Ok "Point(x=True, y=0)"%string
  /\ __repr__ Samples.length_hash
       {| ob_type := cls_type Samples.Point;
          ob_dict := [("y", VInt 0); ("x", VInt 1)] |}
     = Ok "Point(x=1, y=0)"%string.
Proof. repeat split. Qed.



(** Two values for the undeclared name that do not compare equal make the
    instances unequal just the same. *)
Example undeclared_keyword_values_differ :
  type_call Samples.Tagged [VInt 1] [("note", VStr "a")]
  = Ok {| ob_type := cls_type Samples.Tagged;
          ob_dict := [("x", VInt 1); ("note", VStr "a")] |}
  /\ __eq__ {| ob_type := cls_type Samples.Tagged;
               ob_dict := [("x", VInt 1); ("note", VStr "a")] |}
            (Some {| ob_type := cls_type Samples.Tagged;
                     ob_dict := [("x", VInt 1); ("note", VStr "b")] |}) = Ok false
  /\ __repr__ Samples.length_hash
       {| ob_type := cls_type Samples.Tagged;
          ob_dict := [("x", VInt 1); ("note", VStr "a")] |}
     = Ok "Tagged(x=1)"%string.
Proof. repeat split. Qed.

(** * Further properties of the construction routine *)

From Stdlib Require Import Permutation.

(** ** Outcomes of construction *)

(** The loop over the invariants fails at one of them, the ones before it
    having returned [True]. *)
Lemma check_each_raise self invariants e :
  check_each_invariant self invariants = Raise e ->
  exists before inv after,
    invariants = before ++ inv :: after
    /\ (forall p, In p before -> member_call p self self = Ok (VBool true))
    /\ ((member_call inv self self = Ok (VBool false)
         /\ e = ViolatedInvariantException (violation_message self inv))
        \/ (exists value, member_call inv self self = Ok value
                          /\ isinstance_bool value = false
                          /\ e = InvariantReturnValueException)
        \/ member_call inv self self = Raise e).
Proof.
  induction invariants as [| q r IH]; intros Hraise; [discriminate Hraise |].
  cbn [check_each_invariant] in Hraise. unfold invariant_execute in Hraise.
  destruct (member_call q self self) as [value | e'] eqn:Hcall.
  - destruct value as [| [|] | | | | | | |]; simpl in Hraise;
      try (injection Hraise as <-; exists [], q, r;
           split; [reflexivity |]; split; [intros p [] |];
           right; left; eexists; split; [exact Hcall | split; reflexivity]).
    + destruct (IH Hraise) as (before & inv & after & -> & Hbefore & Hcase).
      exists (q :: before), inv, after.
      split; [reflexivity |]. split; [| exact Hcase].
      intros p [<- | Hp]; [exact Hcall | exact (Hbefore p Hp)].
    + injection Hraise as <-. exists [], q, r.
      split; [reflexivity |]. split; [intros p [] |].
      left. split; [exact Hcall | reflexivity].
  - simpl in Hraise. injection Hraise as <-. exists [], q, r.
    split; [reflexivity |]. split; [intros p [] |].
    right; right. exact Hcall.
Qed.

(** X1.  Construction returns an instance exactly when the type declares
    a field, no positional value is [None], and every discovered invariant
    returns [True] on the bound instance; the instance returned is the
    bound one. *)
Theorem construction_succeeds_iff cls args kwargs self :
  __new__ cls args kwargs = Ok self
  <-> exists a v k d,
        tp_init (cls_type cls) = PyFunction a v k d
        /\ MIN_NUMBER_ARGS < List.length a
        /\ ~ In VNone args
        /\ self = bound_instance cls (ArgsSpec.Build a v k d) args kwargs
        /\ forall p, In p (obtain_invariants cls) ->
                     member_call p self self = Ok (VBool true).
Proof.
  split.
  - intros Hnew.
    destruct (new_ok_inv _ _ _ _ Hnew) as (a & v & k & d & Hinit & Hlen & Hnone & Hself & Hchk).
    exists a, v, k, d. repeat split; try assumption.
    + intros Hin. apply none_in_args in Hin. rewrite Hin in Hnone. discriminate Hnone.
    + exact (check_each_ok self _ Hchk).
  - intros (a & v & k & d & Hinit & Hlen & Hnone & Hself & Hall).
    rewrite Hself in Hall |- *.
    exact (new_succeeds cls a v k d args kwargs Hinit Hlen Hnone Hall).
Qed.

Lemma construction_succeeds_iff_witness :
  __new__ Samples.Money [VInt 10] []
  = Ok {| ob_type := cls_type Samples.Money;
          ob_dict := [("currency", VStr "USD"); ("amount", VInt 10)] |}.
Proof.
  apply (proj2 (construction_succeeds_iff Samples.Money [VInt 10] [] _)).
  exists ["self"; "amount"; "currency"], None, None, (Some [VStr "USD"]).
  split; [reflexivity |].
  split; [unfold MIN_NUMBER_ARGS; simpl; lia |].
  split; [simpl; intuition discriminate |].
  split; [reflexivity |].
  intros p [<- | []]. reflexivity.
Defined.

(** X2.  Whatever construction raises is one of: the declaration error,
    on a type without fields; the missing-value error, on a type with
    fields and a [None] positional value; or what the first invariant that
    does not return [True] brings about, which is the violation with its
    message when it returns [False], the return-value error when it returns
    something that is not a boolean, and its own exception when it raises. *)
Theorem construction_raises_only cls args kwargs e :
  __new__ cls args kwargs = Raise e ->
  (e = NotDeclaredArgsException /\ declared_fields (tp_init (cls_type cls)) = [])
  \/ (e = ArgWithoutValueException
      /\ declared_fields (tp_init (cls_type cls)) <> [] /\ In VNone args)
  \/ exists a v k d self before inv after,
       tp_init (cls_type cls) = PyFunction a v k d
       /\ self = bound_instance cls (ArgsSpec.Build a v k d) args kwargs
       /\ obtain_invariants cls = before ++ inv :: after
       /\ (forall p, In p before -> member_call p self self = Ok (VBool true))
       /\ ((member_call inv self self = Ok (VBool false)
            /\ e = ViolatedInvariantException (violation_message self inv))
           \/ (exists value, member_call inv self self = Ok value
                             /\ isinstance_bool value = false
                             /\ e = InvariantReturnValueException)
           \/ member_call inv self self = Raise e).
Proof.
  intros Hraise.
  destruct (tp_init (cls_type cls)) as [a v k d |] eqn:Hinit.
  - rewrite (new_unfold cls a v k d args kwargs Hinit) in Hraise.
    destruct (Nat.leb_spec (List.length a) MIN_NUMBER_ARGS) as [Hle | Hgt].
    + left. injection Hraise as <-. split; [reflexivity |].
      unfold MIN_NUMBER_ARGS in Hle. simpl.
      destruct a as [| r [| f rest]]; simpl in *; [reflexivity | reflexivity | lia].
    + destruct (existsb (fun x => py_eq x VNone) args) eqn:Hnone.
      * right; left. injection Hraise as <-. split; [reflexivity |].
        split; [| apply none_in_args; exact Hnone].
        unfold MIN_NUMBER_ARGS in Hgt. simpl.
        destruct a as [| r [| f rest]]; simpl in *; [lia | lia | discriminate].
      * right; right.
        unfold check_invariants in Hraise.
        destruct (check_each_invariant
                    (bound_instance cls (ArgsSpec.Build a v k d) args kwargs)
                    (obtain_invariants cls)) as [[] | e'] eqn:Hchk;
          [discriminate Hraise |].
        simpl in Hraise. injection Hraise as <-.
        destruct (check_each_raise _ _ _ Hchk) as (before & inv & after & Hinvs & Hb & Hcase).
        exists a, v, k, d, (bound_instance cls (ArgsSpec.Build a v k d) args kwargs),
          before, inv, after.
        repeat split; assumption.
  - left. rewrite (new_no_init cls args kwargs Hinit) in Hraise.
    injection Hraise as <-. split; reflexivity.
Qed.

Lemma construction_raises_only_witness :
  exists message,
    __new__ Samples.Money [VInt (-5)] [] = Raise (ViolatedInvariantException message)
    /\ ((ViolatedInvariantException message = NotDeclaredArgsException
         /\ declared_fields (tp_init (cls_type Samples.Money)) = [])
        \/ (ViolatedInvariantException message = ArgWithoutValueException
            /\ declared_fields (tp_init (cls_type Samples.Money)) <> []
            /\ In VNone [VInt (-5)])
        \/ exists a v k d self before inv after,
             tp_init (cls_type Samples.Money) = PyFunction a v k d
             /\ self = bound_instance Samples.Money (ArgsSpec.Build a v k d) [VInt (-5)] []
             /\ obtain_invariants Samples.Money = before ++ inv :: after
             /\ (forall p, In p before -> member_call p self self = Ok (VBool true))
             /\ ((member_call inv self self = Ok (VBool false)
                  /\ ViolatedInvariantException message
                     = ViolatedInvariantException (violation_message self inv))
                 \/ (exists value, member_call inv self self = Ok value
                                   /\ isinstance_bool value = false
                                   /\ ViolatedInvariantException message
                                      = InvariantReturnValueException)
                 \/ member_call inv self self
                    = Raise (ViolatedInvariantException message))).
Proof.
  eexists. split; [reflexivity |].
  exact (construction_raises_only Samples.Money [VInt (-5)] [] _ eq_refl).
Defined.

(** X3.  An exception raised by the first invariant that does not return
    [True] leaves construction as it is. *)
Theorem invariant_exception_propagates cls a v k d args kwargs self before inv after e :
  tp_init (cls_type cls) = PyFunction a v k d ->
  MIN_NUMBER_ARGS < List.length a ->
  ~ In VNone args ->
  self = bound_instance cls (ArgsSpec.Build a v k d) args kwargs ->
  obtain_invariants cls = before ++ inv :: after ->
  (forall p, In p before -> member_call p self self = Ok (VBool true)) ->
  member_call inv self self = Raise e ->
  __new__ cls args kwargs = Raise e.
Proof.
  intros Hinit Hlen Hnone Hself Hinvs Hbefore Hcall.
  rewrite (new_past_guards cls a v k d args kwargs Hinit Hlen Hnone), <- Hself.
  unfold check_invariants. rewrite Hinvs, (check_each_skip _ _ _ Hbefore).
  cbn [check_each_invariant]. unfold invariant_execute. rewrite Hcall. reflexivity.
Qed.

(** [Money("ten")]: the invariant compares a text with a number. *)
Lemma invariant_exception_propagates_witness :
  __new__ Samples.Money [VStr "ten"] [] = Raise TypeError.
Proof.
  refine (invariant_exception_propagates Samples.Money
            ["self"; "amount"; "currency"] None None (Some [VStr "USD"])
            [VStr "ten"] [] _ [] Samples.amount_not_negative [] TypeError
            eq_refl _ _ eq_refl eq_refl _ eq_refl).
  - unfold MIN_NUMBER_ARGS; simpl; lia.
  - simpl; intuition discriminate.
  - intros p [].
Defined.

(** ** Requests that bind the same *)

(** What any name reads on a constructed instance, in terms of the
    request. *)
Lemma constructed_get cls args kwargs self name :
  NoDup (declared_fields (tp_init (cls_type cls))) ->
  NoDup (dict_keys kwargs) ->
  __new__ cls args kwargs = Ok self ->
  dict_get name (ob_dict self)
  = match dict_get name kwargs with
    | Some x => Some (Spec.frozen_variant x)
    | None =>
        match dict_get name (combine (declared_fields (tp_init (cls_type cls))) args) with
        | Some x => Some x
        | None => dict_get name
                    (combine (rev (declared_fields (tp_init (cls_type cls))))
                             (rev (declared_defaults (tp_init (cls_type cls)))))
        end
    end.
Proof.
  intros Hfields Hkw Hnew.
  destruct (new_ok_inv _ _ _ _ Hnew) as (a & v & k & d & Hinit & _ & _ & Hself & _).
  rewrite Hinit in *. simpl in Hfields.
  rewrite Hself, (bound_get cls a v k d args kwargs name Hfields Hkw).
  destruct d; reflexivity.
Qed.

(** Instances that read the same at every name are equal. *)
Lemma same_reads_equal (da db : dict) :
  NoDup (dict_keys da) -> NoDup (dict_keys db) ->
  (forall name, dict_get name da = dict_get name db) ->
  dict_eqb da db = true.
Proof.
  intros Ha Hb Hsame. apply (dict_eqb_fields_equal da db Ha Hb).
  intros name. rewrite <- (Hsame name).
  destruct (dict_get name da); [apply py_eq_refl | exact I].
Qed.

Lemma combine_surplus {A B : Type} (xs : list A) (ys extra : list B) :
  List.length xs <= List.length ys -> combine xs (ys ++ extra) = combine xs ys.
Proof.
  revert ys. induction xs as [| x r IH]; intros [| y ys] Hlen; simpl in *;
    try reflexivity; try lia.
  rewrite IH; [reflexivity | lia].
Qed.

(** X4.  Positional values beyond the declared fields are dropped: as
    long as none of them is [None], a request with them has the outcome of
    the request without them. *)
Theorem surplus_positional_ignored cls args extra kwargs :
  List.length (declared_fields (tp_init (cls_type cls))) <= List.length args ->
  ~ In VNone extra ->
  __new__ cls (args ++ extra) kwargs = __new__ cls args kwargs.
Proof.
  intros Hlen Hextra.
  destruct (tp_init (cls_type cls)) as [a v k d |] eqn:Hinit.
  - rewrite !(new_unfold cls a v k d _ kwargs Hinit).
    destruct (Nat.leb (List.length a) MIN_NUMBER_ARGS); [reflexivity |].
    rewrite existsb_app.
    assert (Hnone : existsb (fun x => py_eq x VNone) extra = false).
    { destruct (existsb (fun x => py_eq x VNone) extra) eqn:E; [| reflexivity].
      exfalso. apply Hextra, none_in_args, E. }
    rewrite Hnone, orb_false_r.
    assert (Hbound : bound_instance cls (ArgsSpec.Build a v k d) (args ++ extra) kwargs
                     = bound_instance cls (ArgsSpec.Build a v k d) args kwargs).
    { unfold bound_instance, assign_instance_arguments, override_default_values_with_args.
      simpl in Hlen |- *. rewrite (combine_surplus (tl a) args extra Hlen). reflexivity. }
    rewrite Hbound. reflexivity.
  - rewrite !(new_no_init cls _ kwargs Hinit). reflexivity.
Qed.

Lemma surplus_positional_ignored_witness :
  __new__ Samples.Point ([VInt 1; VInt 2] ++ [VInt 3; VStr "more"]) []
  = Ok {| ob_type := cls_type Samples.Point;
          ob_dict := [("y", VInt 2); ("x", VInt 1)] |}.
Proof.
  rewrite (surplus_positional_ignored Samples.Point [VInt 1; VInt 2]
             [VInt 3; VStr "more"] []).
  - reflexivity.
  - simpl; lia.
  - simpl; intuition discriminate.
Defined.




(** X6.  A value that is no container binds the same whether it is given
    positionally or by the name of its field: the request with positional
    values and the request with the same values under the names of their
    fields give instances that read the same at every name, are equal, and
    have the same text. *)
Theorem positional_or_keyword (py_hash : string -> Z) cls args a b :
  NoDup (declared_fields (tp_init (cls_type cls))) ->
  (forall x, In x args -> isinstance_dict x || isinstance_list_or_set x = false) ->
  __new__ cls args [] = Ok a ->
  __new__ cls [] (combine (declared_fields (tp_init (cls_type cls))) args) = Ok b ->
  (forall name, instance_attribute a name = instance_attribute b name)
  /\ __eq__ a (Some b) = Ok true
  /\ __repr__ py_hash a = __repr__ py_hash b.
Proof.
  intros Hfields Hplain Ha Hb.
  assert (Hkw : NoDup (dict_keys (combine (declared_fields (tp_init (cls_type cls))) args)))
    by (apply combine_keys_nodup; exact Hfields).
  assert (Hsame : forall name, dict_get name (ob_dict a) = dict_get name (ob_dict b)).
  { intros name.
    rewrite (constructed_get cls args [] a name Hfields (NoDup_nil _) Ha).
    rewrite (constructed_get cls [] _ b name Hfields Hkw Hb).
    simpl dict_get at 1. rewrite combine_nil. simpl dict_get at 3.
    destruct (dict_get name (combine (declared_fields (tp_init (cls_type cls))) args))
      as [x |] eqn:E; [| reflexivity].
    rewrite frozen_variant_other; [reflexivity |].
    apply Hplain. apply dict_get_some_in in E. exact (in_combine_r _ _ _ _ E). }
  split; [intros name; unfold instance_attribute; rewrite (Hsame name); reflexivity |].
  split.
  - simpl. rewrite (same_reads_equal _ _ (new_ok_nodup _ _ _ _ Ha)
                      (new_ok_nodup _ _ _ _ Hb) Hsame). reflexivity.
  - apply repr_reads_declared_fields.
    + rewrite (new_ok_type _ _ _ _ Ha), (new_ok_type _ _ _ _ Hb). reflexivity.
    + intros f _. apply Hsame.
Qed.

(** [Pair(1, 2)] and [Pair(x=1, y=2)]. *)
Lemma positional_or_keyword_witness :
  __new__ MoreSamples.Pair [VInt 1; VInt 2] []
  = Ok {| ob_type := cls_type MoreSamples.Pair;
          ob_dict := [("x", VInt 1); ("y", VInt 2)] |}
  /\ __new__ MoreSamples.Pair [] [("x", VInt 1); ("y", VInt 2)]
     = Ok {| ob_type := cls_type MoreSamples.Pair;
             ob_dict := [("x", VInt 1); ("y", VInt 2)] |}
  /\ __eq__ {| ob_type := cls_type MoreSamples.Pair;
               ob_dict := [("x", VInt 1); ("y", VInt 2)] |}
            (Some {| ob_type := cls_type MoreSamples.Pair;
                     ob_dict := [("x", VInt 1); ("y", VInt 2)] |}) = Ok true.
Proof.
  split; [reflexivity |]. split; [reflexivity |].
  refine (proj1 (proj2 (positional_or_keyword Samples.length_hash MoreSamples.Pair [VInt 1; VInt 2]
                          _ _ _ _ eq_refl eq_refl))).
  - simpl; distinct_names.
  - intros x [<- | [<- | []]]; reflexivity.
Defined.

(** X7.  A list binds differently by keyword and by position: when a
    field gets a list positionally, the request that gives the same list
    under the field's name as well binds a tuple instead, and the two
    instances are not equal. *)
Theorem keyword_list_breaks_equality cls args kwargs i f elems a b :
  NoDup (declared_fields (tp_init (cls_type cls))) ->
  NoDup (dict_keys kwargs) ->
  nth_error (declared_fields (tp_init (cls_type cls))) i = Some f ->
  nth_error args i = Some (VList elems) ->
  dict_get f kwargs = None ->
  __new__ cls args kwargs = Ok a ->
  __new__ cls args (kwargs ++ [(f, VList elems)]) = Ok b ->
  instance_attribute a f = Ok (VList elems)
  /\ instance_attribute b f = Ok (VTuple elems)
  /\ __eq__ a (Some b) = Ok false.
Proof.
  intros Hfields Hkw Hi Harg Hnone Ha Hb.
  assert (Hkw2 : NoDup (dict_keys (kwargs ++ [(f, VList elems)]))).
  { unfold dict_keys. rewrite map_app. simpl.
    apply NoDup_app; [exact Hkw | distinct_names |].
    intros name Hin [Heq | []]. subst name.
    exact (proj1 (dict_get_none kwargs f) Hnone Hin). }
  assert (Hgeta : dict_get f (ob_dict a) = Some (VList elems)).
  { rewrite (bound_field_resolved _ _ _ _ Hfields Hkw Ha i f Hi).
    unfold Spec.resolve_field. rewrite Hnone, Harg. reflexivity. }
  assert (Hgetb : dict_get f (ob_dict b) = Some (VTuple elems)).
  { rewrite (bound_field_resolved _ _ _ _ Hfields Hkw2 Hb i f Hi).
    unfold Spec.resolve_field. rewrite dict_get_app, Hnone. simpl.
    rewrite String.eqb_refl. reflexivity. }
  unfold instance_attribute. rewrite Hgeta, Hgetb.
  split; [reflexivity |]. split; [reflexivity |].
  simpl. destruct (dict_eqb (ob_dict a) (ob_dict b)) eqn:E; [| reflexivity].
  apply (dict_eqb_fields_equal _ _ (new_ok_nodup _ _ _ _ Ha) (new_ok_nodup _ _ _ _ Hb)) in E.
  specialize (E f). rewrite Hgeta, Hgetb in E. simpl in E. discriminate E.
Qed.

(** [Point([1])] against [Point([1], x=[1])]. *)
Lemma keyword_list_breaks_equality_witness :
  __new__ Samples.Point [VList [VInt 1]] []
  = Ok {| ob_type := cls_type Samples.Point;
          ob_dict := [("y", VInt 0); ("x", VList [VInt 1])] |}
  /\ __new__ Samples.Point [VList [VInt 1]] ([] ++ [("x", VList [VInt 1])])
     = Ok {| ob_type := cls_type Samples.Point;
             ob_dict := [("y", VInt 0); ("x", VTuple [VInt 1])] |}
  /\ __eq__ {| ob_type := cls_type Samples.Point;
               ob_dict := [("y", VInt 0); ("x", VList [VInt 1])] |}
            (Some {| ob_type := cls_type Samples.Point;
                     ob_dict := [("y", VInt 0); ("x", VTuple [VInt 1])] |}) = Ok false.
Proof.
  split; [reflexivity |]. split; [reflexivity |].
  refine (proj2 (proj2 (keyword_list_breaks_equality Samples.Point [VList [VInt 1]] []
                          0 "x" [VInt 1] _ _ _ _ eq_refl eq_refl eq_refl eq_refl eq_refl))).
  - simpl; distinct_names.
  - simpl; distinct_names.
Defined.

(** ** Fields left without a value *)




(** ** Equality between instances *)

(** X9.  Between two constructed instances [==] returns [True] exactly
    when their bound fields are equal under per-value equality, [!=]
    returns the negation of what [==] returns, and an instance is equal to
    itself. *)
Theorem eq_ne_between_instances cls1 args1 kwargs1 cls2 args2 kwargs2 a b :
  __new__ cls1 args1 kwargs1 = Ok a ->
  __new__ cls2 args2 kwargs2 = Ok b ->
  (__eq__ a (Some b) = Ok true <-> Spec.fields_equal (ob_dict a) (ob_dict b))
  /\ (__ne__ a (Some b) = Ok false <-> Spec.fields_equal (ob_dict a) (ob_dict b))
  /\ (exists r, __eq__ a (Some b) = Ok r /\ __ne__ a (Some b) = Ok (negb r))
  /\ __eq__ a (Some a) = Ok true
  /\ __ne__ a (Some a) = Ok false.
Proof.
  intros Ha Hb.
  pose proof (dict_eqb_fields_equal _ _ (new_ok_nodup _ _ _ _ Ha) (new_ok_nodup _ _ _ _ Hb))
    as Hiff.
  pose proof (same_reads_equal _ _ (new_ok_nodup _ _ _ _ Ha) (new_ok_nodup _ _ _ _ Ha)
                (fun name => eq_refl)) as Hrefl.
  simpl. rewrite Hrefl.
  split; [| split; [| split; [| split; reflexivity]]].
  - rewrite <- Hiff. split; [intros H; injection H as H; exact H | intros ->; reflexivity].
  - rewrite <- Hiff. split.
    + intros H. injection H as H. apply negb_false_iff. exact H.
    + intros ->. reflexivity.
  - eexists. split; reflexivity.
Qed.

Lemma eq_ne_between_instances_witness :
  __new__ Samples.Point [VInt 1] [] 
  = Ok {| ob_type := cls_type Samples.Point;
          ob_dict := [("y", VInt 0); ("x", VInt 1)] |}
  /\ __new__ Samples.Point [VInt 2] []
     = Ok {| ob_type := cls_type Samples.Point;
             ob_dict := [("y", VInt 0); ("x", VInt 2)] |}
  /\ exists r,
       __eq__ {| ob_type := cls_type Samples.Point;
                 ob_dict := [("y", VInt 0); ("x", VInt 1)] |}
              (Some {| ob_type := cls_type Samples.Point;
                       ob_dict := [("y", VInt 0); ("x", VInt 2)] |}) = Ok r
       /\ __ne__ {| ob_type := cls_type Samples.Point;
                    ob_dict := [("y", VInt 0); ("x", VInt 1)] |}
                 (Some {| ob_type := cls_type Samples.Point;
                          ob_dict := [("y", VInt 0); ("x", VInt 2)] |}) = Ok (negb r).
Proof.
  split; [reflexivity |]. split; [reflexivity |].
  exact (proj1 (proj2 (proj2 (eq_ne_between_instances
                                Samples.Point [VInt 1] [] Samples.Point [VInt 2] []
                                _ _ eq_refl eq_refl)))).
Defined.





(** ** Order of binding *)


Lemma dict_keys_set_add (d : dict) k v :
  dict_keys (dict_set d k v) = add_name (dict_keys d) k.
Proof.
  unfold add_name. induction d as [| [k' v'] r IH]; simpl; [reflexivity |].
  destruct (String.eqb k k') eqn:E; simpl.
  - apply String.eqb_eq in E; subst k'. reflexivity.
  - rewrite IH. destruct (existsb (String.eqb k) (dict_keys r)); reflexivity.
Qed.

Lemma dict_keys_update_add (other d : dict) :
  dict_keys (dict_update d other) = fold_left add_name (dict_keys other) (dict_keys d).
Proof.
  unfold dict_update. revert d.
  induction other as [| [k v] r IH]; intros d; simpl; [reflexivity |].
  rewrite IH, dict_keys_set_add. reflexivity.
Qed.

Lemma in_fold_add (names acc : list string) y :
  In y (fold_left add_name names acc) <-> In y acc \/ In y names.
Proof.
  revert acc. induction names as [| x r IH]; intros acc; simpl.
  - intuition.
  - rewrite IH. unfold add_name.
    destruct (existsb (String.eqb x) acc) eqn:E.
    + apply existsb_eqb_in in E. intuition (subst; auto).
    + rewrite in_app_iff. simpl. intuition.
Qed.

Lemma add_name_present (names : list string) k :
  existsb (String.eqb k) names = true -> add_name names k = names.
Proof. intros H. unfold add_name. rewrite H. reflexivity. Qed.

Lemma add_name_absent (names : list string) k :
  existsb (String.eqb k) names = false -> add_name names k = names ++ [k].
Proof. intros H. unfold add_name. rewrite H. reflexivity. Qed.

(** Adding the names of a list, or only their first occurrences, comes to
    the same. *)
Lemma fold_add_absorb (names acc : list string) :
  fold_left add_name (first_occurrences names) acc = fold_left add_name names acc.
Proof.
  unfold first_occurrences.
  induction names as [| x r IH] using rev_ind; [reflexivity |].
  rewrite !fold_left_app. cbn [fold_left].
  destruct (existsb (String.eqb x) (fold_left add_name r [])) eqn:E.
  - rewrite (add_name_present _ _ E), IH.
    assert (Hin : In x (fold_left add_name r acc)).
    { apply in_fold_add. right. apply existsb_eqb_in in E.
      apply in_fold_add in E as [[] | E]. exact E. }
    apply existsb_eqb_in in Hin. rewrite (add_name_present _ _ Hin). reflexivity.
  - rewrite (add_name_absent _ _ E), fold_left_app. cbn [fold_left].
    rewrite IH. reflexivity.
Qed.

Lemma dict_keys_update_of_pairs (pairs d : dict) :
  dict_keys (dict_update d (dict_of_pairs pairs))
  = fold_left add_name (dict_keys pairs) (dict_keys d).
Proof.
  rewrite dict_keys_update_add. unfold dict_of_pairs. rewrite dict_keys_update_add.
  exact (fold_add_absorb (dict_keys pairs) (dict_keys d)).
Qed.

Lemma combine_keys_firstn (names : list string) (values : list pyval) :
  dict_keys (combine names values) = firstn (List.length values) names.
Proof.
  revert values. induction names as [| n r IH]; intros [| v vs]; simpl; try reflexivity.
  rewrite <- IH. reflexivity.
Qed.

(** X11.  The names in the [__dict__] of a constructed instance, in
    order: the fields that have a default, last declared first; then the
    fields that get a positional value, in declaration order; then the
    keywords, as written; each name where it comes first.  No other name
    is bound. *)
Theorem binding_order cls args kwargs self :
  NoDup (dict_keys kwargs) ->
  __new__ cls args kwargs = Ok self ->
  dict_keys (ob_dict self)
  = first_occurrences
      (firstn (List.length (declared_defaults (tp_init (cls_type cls))))
              (rev (declared_fields (tp_init (cls_type cls))))
       ++ firstn (List.length args) (declared_fields (tp_init (cls_type cls)))
       ++ dict_keys kwargs)
  /\ forall name,
       In name (dict_keys (ob_dict self))
       <-> In name (firstn (List.length (declared_defaults (tp_init (cls_type cls))))
                           (rev (declared_fields (tp_init (cls_type cls)))))
           \/ In name (firstn (List.length args) (declared_fields (tp_init (cls_type cls))))
           \/ In name (dict_keys kwargs).
Proof.
  intros Hkw Hnew.
  assert (Horder : dict_keys (ob_dict self)
                   = first_occurrences
                       (firstn (List.length (declared_defaults (tp_init (cls_type cls))))
                               (rev (declared_fields (tp_init (cls_type cls))))
                        ++ firstn (List.length args)
                             (declared_fields (tp_init (cls_type cls)))
                        ++ dict_keys kwargs)).
  { destruct (new_ok_inv _ _ _ _ Hnew) as (a & v & k & d & Hinit & _ & _ & Hself & _).
    rewrite Hinit, Hself.
    unfold bound_instance, assign_instance_arguments, override_default_values_with_args,
      assign_default_values.
    cbn [ob_dict ob_type ArgsSpec.args ArgsSpec._args ArgsSpec.defaults ArgsSpec._defaults
         declared_fields declared_defaults].
    rewrite !dict_keys_update_of_pairs.
    change (dict_keys []) with (@nil string).
    unfold first_occurrences. rewrite <- fold_left_app.
    unfold dict_keys at 2. rewrite map_app.
    change (map fst (combine (tl a) args)) with (dict_keys (combine (tl a) args)).
    change (map fst (replace_mutable_kwargs_with_immutable_types kwargs))
      with (dict_keys (replace_mutable_kwargs_with_immutable_types kwargs)).
    rewrite (replace_mutable_frozen kwargs Hkw), dict_keys_freeze.
    rewrite !combine_keys_firstn, length_rev.
    destruct d; reflexivity. }
  split; [exact Horder |].
  intros name. rewrite Horder. unfold first_occurrences.
  rewrite in_fold_add, !in_app_iff. cbn [In]. tauto.
Qed.

(** [Money(10, note="n", currency="EUR")]: [currency] comes first, for its
    default. *)
Lemma binding_order_witness :
  __new__ Samples.Money [VInt 10] [("note", VStr "n"); ("currency", VStr "EUR")]
  = Ok {| ob_type := cls_type Samples.Money;
          ob_dict := [("currency", VStr "EUR"); ("amount", VInt 10); ("note", VStr "n")] |}
  /\ dict_keys [("currency", VStr "EUR"); ("amount", VInt 10); ("note", VStr "n")]
     = first_occurrences (["currency"] ++ ["amount"] ++ ["note"; "currency"]).
Proof.
  split; [reflexivity |].
  refine (proj1 (binding_order Samples.Money [VInt 10]
                   [("note", VStr "n"); ("currency", VStr "EUR")] _ _ eq_refl)).
  simpl; distinct_names.
Defined.

(** ** Freezing, again *)

Lemma frozen_variant_idempotent (x : pyval) :
  Spec.frozen_variant (Spec.frozen_variant x) = Spec.frozen_variant x.
Proof. destruct x; reflexivity. Qed.

(** X12.  On a keyword dictionary the freezing loop keeps the names and
    their order, leaves no value that is a list or a set or that freezing
    would still change, and changes nothing when it is run again. *)
Theorem freezing_is_stable (kwargs : dict) :
  NoDup (dict_keys kwargs) ->
  dict_keys (replace_mutable_kwargs_with_immutable_types kwargs) = dict_keys kwargs
  /\ (forall name x,
         In (name, x) (replace_mutable_kwargs_with_immutable_types kwargs) ->
         isinstance_list_or_set x = false /\ Spec.frozen_variant x = x)
  /\ replace_mutable_kwargs_with_immutable_types
       (replace_mutable_kwargs_with_immutable_types kwargs)
     = replace_mutable_kwargs_with_immutable_types kwargs.
Proof.
  intros Hkw. rewrite (replace_mutable_frozen kwargs Hkw).
  split; [apply dict_keys_freeze |]. split.
  - intros name x Hin. apply in_map_iff in Hin as [[name0 x0] [Heq _]].
    unfold Spec.freeze_item in Heq. simpl in Heq. injection Heq as _ <-.
    split; [destruct x0; reflexivity | apply frozen_variant_idempotent].
  - rewrite replace_mutable_frozen by (rewrite dict_keys_freeze; exact Hkw).
    rewrite map_map. apply map_ext. intros [name x]. unfold Spec.freeze_item. simpl.
    rewrite frozen_variant_idempotent. reflexivity.
Qed.

Lemma freezing_is_stable_witness :
  replace_mutable_kwargs_with_immutable_types
    [("a", VList [VList []]); ("b", VSet [VInt 1]); ("c", VDict []); ("d", VInt 3)]
  = [("a", VTuple [VList []]); ("b", VTuple [VInt 1]); ("c", VImmutableDict []);
     ("d", VInt 3)]
  /\ replace_mutable_kwargs_with_immutable_types
       (replace_mutable_kwargs_with_immutable_types
          [("a", VList [VList []]); ("b", VSet [VInt 1]); ("c", VDict []); ("d", VInt 3)])
     = replace_mutable_kwargs_with_immutable_types
         [("a", VList [VList []]); ("b", VSet [VInt 1]); ("c", VDict []); ("d", VInt 3)].
Proof.
  split; [reflexivity |].
  refine (proj2 (proj2 (freezing_is_stable _ _))).
  simpl; distinct_names.
Defined.

(** ** Rebuilding an instance from its own fields *)

Lemma py_eq_frozen (x : pyval) :
  isinstance_list_or_set x = false -> py_eq x (Spec.frozen_variant x) = true.
Proof.
  intros Hplain. destruct x; try discriminate Hplain; try apply py_eq_refl.
  exact (py_eq_refl (VDict items)).
Qed.

Lemma py_str_frozen (x : pyval) :
  isinstance_list_or_set x = false -> py_str (Spec.frozen_variant x) = py_str x.
Proof. intros Hplain. destruct x; try discriminate Hplain; reflexivity. Qed.


(** X13.  An instance none of whose values is a list or a set can be
    rebuilt from its own fields: the request that gives its [__dict__] as
    keywords binds each name to the frozen variant of its value, and yields
    an instance equal to it, with the same text. *)
Theorem rebuild_from_fields (py_hash : string -> Z) cls args kwargs self again :
  NoDup (declared_fields (tp_init (cls_type cls))) ->
  NoDup (dict_keys kwargs) ->
  __new__ cls args kwargs = Ok self ->
  (forall name x, dict_get name (ob_dict self) = Some x ->
                  isinstance_list_or_set x = false) ->
  __new__ cls [] (ob_dict self) = Ok again ->
  (forall name,
      dict_get name (ob_dict again)
      = option_map Spec.frozen_variant (dict_get name (ob_dict self)))
  /\ __eq__ self (Some again) = Ok true
  /\ __repr__ py_hash again = __repr__ py_hash self.
Proof.
  intros Hfields Hkw Hself Hplain Hagain.
  pose proof (new_ok_nodup _ _ _ _ Hself) as Hnd.
  assert (Hget : forall name,
             dict_get name (ob_dict again)
             = option_map Spec.frozen_variant (dict_get name (ob_dict self))).
  { intros name.
    rewrite (constructed_get cls [] (ob_dict self) again name Hfields Hnd Hagain).
    rewrite combine_nil. cbn [dict_get].
    destruct (dict_get name (ob_dict self)) as [x |] eqn:E; [reflexivity |].
    rewrite (constructed_get cls args kwargs self name Hfields Hkw Hself) in E.
    destruct (dict_get name kwargs); [discriminate E |].
    destruct (dict_get name (combine (declared_fields (tp_init (cls_type cls))) args));
      [discriminate E |].
    rewrite E. reflexivity. }
  split; [exact Hget |]. split.
  - simpl.
    assert (Heq : dict_eqb (ob_dict self) (ob_dict again) = true).
    { apply (dict_eqb_fields_equal _ _ Hnd (new_ok_nodup _ _ _ _ Hagain)).
      intros name. rewrite (Hget name).
      destruct (dict_get name (ob_dict self)) as [x |] eqn:E; simpl; [| exact I].
      apply py_eq_frozen. exact (Hplain name x E). }
    rewrite Heq. reflexivity.
  - apply repr_reads_texts.
    + rewrite (new_ok_type _ _ _ _ Hself), (new_ok_type _ _ _ _ Hagain). reflexivity.
    + intros f _. rewrite (Hget f).
      destruct (dict_get f (ob_dict self)) as [x |] eqn:E; simpl; [| reflexivity].
      rewrite (py_str_frozen x (Hplain f x E)). reflexivity.
Qed.

(** A [Point] whose [x] was given as a mapping, positionally, comes back
    with a frozen mapping, equal to it. *)
Lemma rebuild_from_fields_witness :
  __new__ Samples.Point [VDict [(VStr "k", VInt 1)]] []
  = Ok {| ob_type := cls_type Samples.Point;
          ob_dict := [("y", VInt 0); ("x", VDict [(VStr "k", VInt 1)])] |}
  /\ __new__ Samples.Point [] [("y", VInt 0); ("x", VDict [(VStr "k", VInt 1)])]
     = Ok {| ob_type := cls_type Samples.Point;
             ob_dict := [("y", VInt 0); ("x", VImmutableDict [(VStr "k", VInt 1)])] |}
  /\ __eq__ {| ob_type := cls_type Samples.Point;
               ob_dict := [("y", VInt 0); ("x", VDict [(VStr "k", VInt 1)])] |}
            (Some {| ob_type := cls_type Samples.Point;
                     ob_dict := [("y", VInt 0);
                                 ("x", VImmutableDict [(VStr "k", VInt 1)])] |})
     = Ok true.
Proof.
  split; [reflexivity |]. split; [reflexivity |].
  refine (proj1 (proj2 (rebuild_from_fields Samples.length_hash Samples.Point [VDict [(VStr "k", VInt 1)]] []
                          _ _ _ _ eq_refl _ eq_refl))).
  - simpl; distinct_names.
  - simpl; distinct_names.
  - intros name x. simpl.
    destruct (String.eqb name "y"); [intros H; injection H as <-; reflexivity |].
    destruct (String.eqb name "x"); [intros H; injection H as <-; reflexivity |].
    discriminate.
Defined.

(** ** [None] by keyword or by default *)

(** X14.  The guard against [None] looks at the positional values only:
    when the type declares a field, no positional value is [None] and the
    invariants hold, construction succeeds, and a field whose keyword value
    is [None], or that falls back on a default that is [None], is bound to
    [None]. *)
Theorem none_by_keyword_or_default_bound cls a v k d args kwargs self :
  tp_init (cls_type cls) = PyFunction a v k d ->
  NoDup (tl a) ->
  NoDup (dict_keys kwargs) ->
  MIN_NUMBER_ARGS < List.length a ->
  ~ In VNone args ->
  self = bound_instance cls (ArgsSpec.Build a v k d) args kwargs ->
  (forall p, In p (obtain_invariants cls) -> member_call p self self = Ok (VBool true)) ->
  __new__ cls args kwargs = Ok self
  /\ (forall f, dict_get f kwargs = Some VNone -> instance_attribute self f = Ok VNone)
  /\ (forall i f, nth_error (tl a) i = Some f ->
                  dict_get f kwargs = None ->
                  nth_error args i = None ->
                  Spec.declared_default (tl a) (declared_defaults (PyFunction a v k d)) i
                  = Some VNone ->
                  instance_attribute self f = Ok VNone).
Proof.
  intros Hinit Hfields Hkw Hlen Hnone Hself Hall.
  assert (Hnew : __new__ cls args kwargs = Ok self).
  { rewrite Hself in Hall |- *.
    exact (new_succeeds cls a v k d args kwargs Hinit Hlen Hnone Hall). }
  split; [exact Hnew |]. split.
  - intros f Hf. unfold instance_attribute.
    rewrite Hself, (bound_get cls a v k d args kwargs f Hfields Hkw), Hf. reflexivity.
  - intros i f Hi Hnokw Hnopos Hdef. unfold instance_attribute.
    assert (Hfields' : NoDup (declared_fields (tp_init (cls_type cls))))
      by (rewrite Hinit; exact Hfields).
    assert (Hi' : nth_error (declared_fields (tp_init (cls_type cls))) i = Some f)
      by (rewrite Hinit; exact Hi).
    rewrite (bound_field_resolved cls args kwargs self Hfields' Hkw Hnew i f Hi').
    unfold Spec.resolve_field. rewrite Hnokw, Hnopos, Hinit. cbn [declared_fields].
    rewrite Hdef. reflexivity.
Qed.

(** [Point(1, y=None)] *)
Lemma none_by_keyword_or_default_bound_witness :
  __new__ Samples.Point [VInt 1] [("y", VNone)]
  = Ok {| ob_type := cls_type Samples.Point;
          ob_dict := [("y", VNone); ("x", VInt 1)] |}
  /\ instance_attribute {| ob_type := cls_type Samples.Point;
                           ob_dict := [("y", VNone); ("x", VInt 1)] |} "y" = Ok VNone.
Proof.
  destruct (none_by_keyword_or_default_bound Samples.Point
              ["self"; "x"; "y"] None None (Some [VInt 0]) [VInt 1] [("y", VNone)]
              {| ob_type := cls_type Samples.Point;
                 ob_dict := [("y", VNone); ("x", VInt 1)] |})
    as [Hnew [Hkeyword _]].
  - reflexivity.
  - simpl; distinct_names.
  - simpl; distinct_names.
  - unfold MIN_NUMBER_ARGS; simpl; lia.
  - simpl; intuition discriminate.
  - reflexivity.
  - intros p [].
  - split; [exact Hnew | exact (Hkeyword "y" eq_refl)].
Defined.

(** ** Identity of equal instances *)



